(** * Atmospheric circulation: field simulation and particle advection

    A shallow embedding of the numerical core of the simulator:
    [ThermalSystem] (the 3D temperature / pressure / density grid, its
    per-tick update and its point queries) and [ParticleSystem] (tracer
    particles advected through the wind field, with boundary recycling).

    JavaScript numbers are kept abstract behind the interface [Number]; the
    program is written once over it.  Two instances are given: the real
    numbers (idealised arithmetic, used for the properties that depend on
    order and algebra) and IEEE-754 binary64 (the arithmetic the program
    really runs on, used to execute the embedding). *)

From Stdlib Require Import ZArith Reals Lra Lia.
From Stdlib Require Floats.
From stdpp Require Import base option list.

Set Default Proof Using "Type".

(* ================================================================== *)
(** ** Numbers *)

(** The operations the program applies to JavaScript numbers. *)
Class Number (F : Type) := {
  (** integer literals, loop counters and array sizes read as numbers *)
  of_Z : Z -> F;
  n_add : F -> F -> F;
  n_sub : F -> F -> F;
  n_mul : F -> F -> F;
  n_div : F -> F -> F;
  n_neg : F -> F;
  (** [a < b]; the program's [a > b] is [b < a] *)
  n_ltb : F -> F -> bool;
  (** [Math.sqrt], [Math.pow], [Math.abs], [Math.max], [Math.min] *)
  n_sqrt : F -> F;
  n_pow : F -> F -> F;
  n_abs : F -> F;
  n_max : F -> F -> F;
  n_min : F -> F -> F;
  (** [Math.floor], as an integer; [None] when the value has no integer
      part (NaN and the infinities), where every index test fails *)
  n_floor : F -> option Z;
  (** truthiness, for [v || d]: zero (and NaN) are falsy *)
  n_truthy : F -> bool;
  (** rounding on a store into a [Float32Array] *)
  n_fround : F -> F
}.

Declare Scope num_scope.
Delimit Scope num_scope with num.
Notation "x + y" := (n_add x y) : num_scope.
Notation "x - y" := (n_sub x y) : num_scope.
Notation "x * y" := (n_mul x y) : num_scope.
Notation "x / y" := (n_div x y) : num_scope.
Notation "- x" := (n_neg x) : num_scope.
Notation "x <? y" := (n_ltb x y) : num_scope.
Notation "x >? y" := (n_ltb y x) (only parsing) : num_scope.

Section Literals.
Context {F : Type} `{Number F}.

(** An integer literal or counter. *)
Definition num (z : Z) : F := of_Z z.

Definition of_nat (n : nat) : F := of_Z (Z.of_nat n).

(** The decimal literal [m]e-[k]: [dec 27315 2] is [273.15].  Both parts
    are exact in binary64, so the quotient is the literal's nearest
    double. *)
Definition dec (m : Z) (k : nat) : F := (of_Z m / of_Z (10 ^ Z.of_nat k))%num.

End Literals.

(** *** The real numbers

    Idealised arithmetic: every operation is exact and a [Float32Array]
    store keeps the value. *)

Module RealNumber.

Definition ltb (a b : R) : bool := if Rlt_dec a b then true else false.

(** [Math.pow]: an integral exponent multiplies the base out; otherwise
    [exp (y * ln x)], the power of a positive base. *)
Definition pow (x y : R) : R :=
  if Req_dec_T y (IZR (Int_part y)) then powerRZ x (Int_part y) else Rpower x y.

Definition truthy (a : R) : bool := if Req_dec_T a 0 then false else true.

#[global] Instance number : Number R := {|
  of_Z := IZR;
  n_add := Rplus;
  n_sub := Rminus;
  n_mul := Rmult;
  n_div := Rdiv;
  n_neg := Ropp;
  n_ltb := ltb;
  n_sqrt := sqrt;
  n_pow := pow;
  n_abs := Rabs;
  n_max := Rmax;
  n_min := Rmin;
  n_floor := fun r => Some (Int_part r);
  n_truthy := truthy;
  n_fround := fun r => r
|}.

End RealNumber.

(** *** IEEE-754 binary64

    The numbers the program runs on.  [Math.pow] is the host's: an
    exponent of 2 is taken as the correctly rounded square, any other
    power is left to the parameter [hostPow]. *)

Module Binary64.
Import Floats.

Definition fromZ (z : Z) : float :=
  match z with
  | Z0 => 0%float
  | Zpos _ => PrimFloat.of_uint63 (Uint63.of_Z z)
  | Zneg p => (- PrimFloat.of_uint63 (Uint63.of_Z (Zpos p)))%float
  end.

(** [Math.floor] of a finite number, as an integer. *)
Definition floor (f : float) : option Z :=
  match Prim2SF f with
  | S754_zero _ => Some 0%Z
  | S754_finite s m e =>
      let mz := if s then Zneg m else Zpos m in
      Some (if (0 <=? e)%Z then mz * 2 ^ e else mz / 2 ^ (- e))%Z
  | _ => None
  end.

(** [Math.fround]: the nearest binary32 number, ties to even. *)
Definition fround (f : float) : float :=
  match Prim2SF f with
  | S754_finite s m e => SF2Prim (SpecFloat.binary_round 24 128 s m e)
  | _ => f
  end.

Definition max (a b : float) : float :=
  if PrimFloat.is_nan a || PrimFloat.is_nan b then PrimFloat.nan
  else if PrimFloat.ltb a b then b else a.

Definition min (a b : float) : float :=
  if PrimFloat.is_nan a || PrimFloat.is_nan b then PrimFloat.nan
  else if PrimFloat.ltb b a then b else a.

Definition truthy (a : float) : bool :=
  negb (PrimFloat.is_zero a || PrimFloat.is_nan a).

Definition pow (hostPow : float -> float -> float) (x y : float) : float :=
  if PrimFloat.eqb y 2 then PrimFloat.mul x x else hostPow x y.

Definition number (hostPow : float -> float -> float) : Number float := {|
  of_Z := fromZ;
  n_add := PrimFloat.add;
  n_sub := PrimFloat.sub;
  n_mul := PrimFloat.mul;
  n_div := PrimFloat.div;
  n_neg := PrimFloat.opp;
  n_ltb := PrimFloat.ltb;
  n_sqrt := PrimFloat.sqrt;
  n_pow := pow hostPow;
  n_abs := PrimFloat.abs;
  n_max := max;
  n_min := min;
  n_floor := floor;
  n_truthy := truthy;
  n_fround := fround
|}.

End Binary64.

(* ================================================================== *)
(** ** Arrays and loops *)

(** [a[i] = v] on a plain array: replaces an element, or appends when [i]
    is the length.  A write further out would leave holes in the array;
    the model has no holes and gives [None] there. *)
Definition array_set {A : Type} (i : nat) (v : A) (a : list A) : option (list A) :=
  if decide (i < length a) then Some (<[i := v]> a)
  else if decide (i = length a) then Some (a ++ [v])
  else None.

(** [for (let i = 0; i < n; i++) body(i)] over a state that [body] may
    fail on ([None]: the JavaScript would throw or read [undefined]). *)
Definition for_loop {S : Type} (n : nat) (body : nat -> S -> option S) (s : S) : option S :=
  foldl (fun acc i => acc ≫= body i) (Some s) (seq 0 n).

(** A grid of cells, [field[h][x][z]]. *)
Abbreviation Field3 F := (list (list (list F))).

Section Field3.
Context {F : Type}.

(** [field[h][x][z]] read as a number; [None] when the level, the row or
    the cell is missing (the JavaScript would throw or read [undefined]). *)
Definition get3 (h x z : nat) (f : Field3 F) : option F :=
  plane ← f !! h; row ← plane !! x; row !! z.

(** [field[h] = []] *)
Definition new_plane (h : nat) (f : Field3 F) : option (Field3 F) :=
  array_set h [] f.

(** [field[h][x] = []] *)
Definition new_row (h x : nat) (f : Field3 F) : option (Field3 F) :=
  plane ← f !! h;
  plane' ← array_set x [] plane;
  Some (<[h := plane']> f).

(** [field[h][x][z] = v] *)
Definition set3 (h x z : nat) (v : F) (f : Field3 F) : option (Field3 F) :=
  plane ← f !! h;
  row ← plane !! x;
  row' ← array_set z v row;
  Some (<[h := <[x := row']> plane]> f).

(** The lengths of the rows of a grid, level by level. *)
Definition shape (f : Field3 F) : list (list nat) := map (map length) f.

End Field3.

(* ================================================================== *)
(** ** THREE.Vector3

    The vector class of the rendering library, with the methods the
    particle system calls, as three.js defines them:
    [length() = sqrt(x*x + y*y + z*z)],
    [normalize() = divideScalar(length() || 1)],
    [divideScalar(s) = multiplyScalar(1 / s)]. *)

Module Vector3.

Record t (F : Type) := mk { x : F; y : F; z : F }.
Arguments mk {F}.
Arguments x {F}.
Arguments y {F}.
Arguments z {F}.

Section Methods.
Context {F : Type} `{Number F}.
Local Open Scope num_scope.

Definition add (v w : t F) : t F := mk (x v + x w) (y v + y w) (z v + z w).

Definition multiplyScalar (s : F) (v : t F) : t F := mk (x v * s) (y v * s) (z v * s).

Definition divideScalar (s : F) (v : t F) : t F := multiplyScalar (num 1 / s) v.

Definition length (v : t F) : F := n_sqrt (x v * x v + y v * y v + z v * z v).

Definition normalize (v : t F) : t F :=
  divideScalar (if n_truthy (length v) then length v else num 1) v.

End Methods.

End Vector3.

(* ================================================================== *)
(** ** ThermalSystem *)

Module Thermal.

Record Pos2 (F : Type) := mkPos2 { pos_x : F; pos_z : F }.
Arguments mkPos2 {F}.
Arguments pos_x {F}.
Arguments pos_z {F}.

(** [this.params], after the constructor's defaults. *)
Record Params (F : Type) := mkParams {
  gridSize : nat;
  heightLevels : nat;
  heatSourcePos : Pos2 F;
  coldSourcePos : Pos2 F;
  baseTemperature : F
}.
Arguments mkParams {F}.
Arguments gridSize {F}.
Arguments heightLevels {F}.
Arguments heatSourcePos {F}.
Arguments coldSourcePos {F}.
Arguments baseTemperature {F}.

(** The numerical state of a [ThermalSystem] object (the scene objects it
    also owns carry no simulation state). *)
Record ThermalSystem (F : Type) := mkThermalSystem {
  params : Params F;
  temperatureField : Field3 F;
  pressureField : Field3 F;
  densityField : Field3 F;
  heatIntensity : F;
  coldIntensity : F
}.
Arguments mkThermalSystem {F}.
Arguments params {F}.
Arguments temperatureField {F}.
Arguments pressureField {F}.
Arguments densityField {F}.
Arguments heatIntensity {F}.
Arguments coldIntensity {F}.

(** The three grids of a system. *)
Inductive FieldName := Temperature | Pressure | Density.

#[export] Instance FieldName_eq_dec : EqDecision FieldName.
Proof. solve_decision. Defined.

Section Program.
Context {F : Type} `{Number F}.
Local Open Scope num_scope.

Definition field (n : FieldName) (s : ThermalSystem F) : Field3 F :=
  match n with
  | Temperature => temperatureField s
  | Pressure => pressureField s
  | Density => densityField s
  end.

Definition with_field (n : FieldName) (f : Field3 F) (s : ThermalSystem F) : ThermalSystem F :=
  match n with
  | Temperature =>
      mkThermalSystem (params s) f (pressureField s) (densityField s)
        (heatIntensity s) (coldIntensity s)
  | Pressure =>
      mkThermalSystem (params s) (temperatureField s) f (densityField s)
        (heatIntensity s) (coldIntensity s)
  | Density =>
      mkThermalSystem (params s) (temperatureField s) (pressureField s) f
        (heatIntensity s) (coldIntensity s)
  end.

(** A statement that rewrites one grid in place. *)
Definition on_field (n : FieldName) (op : Field3 F -> option (Field3 F))
    (s : ThermalSystem F) : option (ThermalSystem F) :=
  f ← op (field n s); Some (with_field n f s).

(** [this.<n>Field[h][x][z]] read as a number. *)
Definition read (n : FieldName) (h x z : nat) (s : ThermalSystem F) : option F :=
  get3 h x z (field n s).

(** [this.<n>Field[h][x][z] = v] *)
Definition assign (n : FieldName) (h x z : nat) (v : F) (s : ThermalSystem F) :
    option (ThermalSystem F) :=
  on_field n (set3 h x z v) s.

(** [calculateBasePressure(height)] *)
Definition calculateBasePressure (height : F) : F :=
  num 101325 * n_pow (num 1 - dec 65 4 * height / dec 28815 2) (dec 5255 3).

(** [calculateDensity(pressure, temperature)] *)
Definition calculateDensity (pressure temperature : F) : F :=
  let R := dec 28705 2 in
  pressure / (R * (temperature + dec 27315 2)).

(** The altitude of level [h]: [(h / heightLevels) * 2000]. *)
Definition levelHeight (p : Params F) (h : nat) : F :=
  (of_nat h / of_nat (heightLevels p)) * num 2000.

(** [initializeFields()] *)
Definition initializeFields (s : ThermalSystem F) : option (ThermalSystem F) :=
  let gridSize := gridSize (params s) in
  let heightLevels := heightLevels (params s) in
  for_loop heightLevels (fun h s =>
    s ← on_field Temperature (new_plane h) s;
    s ← on_field Pressure (new_plane h) s;
    s ← on_field Density (new_plane h) s;
    for_loop gridSize (fun x s =>
      s ← on_field Temperature (new_row h x) s;
      s ← on_field Pressure (new_row h x) s;
      s ← on_field Density (new_row h x) s;
      for_loop gridSize (fun z s =>
        let height := levelHeight (params s) h in
        let baseTemp := baseTemperature (params s) - height * dec 65 4 in
        s ← assign Temperature h x z baseTemp s;
        s ← assign Pressure h x z (calculateBasePressure height) s;
        p ← read Pressure h x z s;
        t ← read Temperature h x z s;
        assign Density h x z (calculateDensity p t) s) s) s) s.

(** [new ThermalSystem(scene, params)]: empty grids, intensities 80 and
    60, then [init()], of which only [initializeFields] touches the
    numerical state. *)
Definition constructor (p : Params F) : option (ThermalSystem F) :=
  initializeFields (mkThermalSystem p [] [] [] (num 80) (num 60)).

(** The planar world position of column [(x, z)], as the temperature
    pass computes it. *)
Definition worldX (p : Params F) (x : nat) : F :=
  (of_nat x - of_nat (gridSize p) / num 2) * (num 4000 / of_nat (gridSize p)).

Definition worldZ (p : Params F) (z : nat) : F :=
  (of_nat z - of_nat (gridSize p) / num 2) * (num 1000 / of_nat (gridSize p)).

(** Planar distance from [(wx, wz)] to a source. *)
Definition sourceDist (wx wz : F) (src : Pos2 F) : F :=
  n_sqrt (n_pow (wx - pos_x src) (num 2) + n_pow (wz - pos_z src) (num 2)).

(** [updateTemperatureField()] *)
Definition updateTemperatureField (s : ThermalSystem F) : option (ThermalSystem F) :=
  let gridSize := gridSize (params s) in
  let heightLevels := heightLevels (params s) in
  for_loop heightLevels (fun h s =>
    for_loop gridSize (fun x s =>
      for_loop gridSize (fun z s =>
        let worldX := worldX (params s) x in
        let worldZ := worldZ (params s) z in
        let heatDist := sourceDist worldX worldZ (heatSourcePos (params s)) in
        let coldDist := sourceDist worldX worldZ (coldSourcePos (params s)) in
        s ← (if heatDist <? num 800 then
               let heatInfluence :=
                 (num 1 - heatDist / num 800) * heatIntensity s / num 100 in
               t ← read Temperature h x z s;
               assign Temperature h x z (t + heatInfluence * dec 1 1) s
             else Some s);
        s ← (if coldDist <? num 800 then
               let coldInfluence :=
                 (num 1 - coldDist / num 800) * coldIntensity s / num 100 in
               t ← read Temperature h x z s;
               assign Temperature h x z (t - coldInfluence * dec 1 1) s
             else Some s);
        let height := levelHeight (params s) h in
        let lapseRate := dec 65 4 in
        t ← read Temperature h x z s;
        assign Temperature h x z (t - height * lapseRate * dec 1 2) s) s) s) s.

(** [updatePressureField()] *)
Definition updatePressureField (s : ThermalSystem F) : option (ThermalSystem F) :=
  let gridSize := gridSize (params s) in
  let heightLevels := heightLevels (params s) in
  for_loop heightLevels (fun h s =>
    for_loop gridSize (fun x s =>
      for_loop gridSize (fun z s =>
        temp ← read Temperature h x z s;
        let height := levelHeight (params s) h in
        let basePressure := calculateBasePressure height in
        let tempRatio := (temp + dec 27315 2) / dec 28815 2 in
        let pressureVariation :=
          basePressure * (num 1 - (tempRatio - num 1) * dec 1 1) in
        s ← assign Pressure h x z pressureVariation s;
        assign Density h x z (calculateDensity pressureVariation temp) s) s) s) s.

(** [updateFields(deltaTime)]: the temperature pass, then the pressure
    pass ([updateVisualization] only recolours the scene).  [deltaTime]
    is not used. *)
Definition updateFields (deltaTime : F) (s : ThermalSystem F) : option (ThermalSystem F) :=
  s ← updateTemperatureField s;
  updatePressureField s.

(** [setHeatIntensity(intensity)], [setColdIntensity(intensity)] *)
Definition setHeatIntensity (intensity : F) (s : ThermalSystem F) : ThermalSystem F :=
  mkThermalSystem (params s) (temperatureField s) (pressureField s) (densityField s)
    (n_max (num 0) (n_min (num 100) intensity)) (coldIntensity s).

Definition setColdIntensity (intensity : F) (s : ThermalSystem F) : ThermalSystem F :=
  mkThermalSystem (params s) (temperatureField s) (pressureField s) (densityField s)
    (heatIntensity s) (n_max (num 0) (n_min (num 100) intensity)).

(** The grid cell a world position falls in, [(gridH, gridX, gridZ)],
    when all three indices pass the range test of the point queries. *)
Definition cellAt (p : Params F) (x y z : F) : option (nat * nat * nat) :=
  let gridSize := gridSize p in
  let spacing := num 4000 / of_nat gridSize in
  match n_floor ((x + num 2000) / spacing),
        n_floor ((z + num 500) / spacing),
        n_floor (y / num 100) with
  | Some gridX, Some gridZ, Some gridH =>
      if bool_decide (0 <= gridX)%Z && bool_decide (gridX < Z.of_nat gridSize)%Z &&
         bool_decide (0 <= gridZ)%Z && bool_decide (gridZ < Z.of_nat gridSize)%Z &&
         bool_decide (0 <= gridH)%Z && bool_decide (gridH < Z.of_nat (heightLevels p))%Z
      then Some (Z.to_nat gridH, Z.to_nat gridX, Z.to_nat gridZ)
      else None
  | _, _, _ => None
  end.

(** [getTemperatureAt(x, y, z)] *)
Definition getTemperatureAt (s : ThermalSystem F) (x y z : F) : option F :=
  match cellAt (params s) x y z with
  | Some (gridH, gridX, gridZ) => read Temperature gridH gridX gridZ s
  | None => Some (baseTemperature (params s))
  end.

(** [getPressureAt(x, y, z)] *)
Definition getPressureAt (s : ThermalSystem F) (x y z : F) : option F :=
  match cellAt (params s) x y z with
  | Some (gridH, gridX, gridZ) => read Pressure gridH gridX gridZ s
  | None => Some (num 101325)
  end.

(** [getWindVectorAt(x, y, z)] *)
Definition getWindVectorAt (s : ThermalSystem F) (x y z : F) : option (Vector3.t F) :=
  let delta := num 50 in
  p0 ← getPressureAt s x y z;
  px ← getPressureAt s (x + delta) y z;
  pz ← getPressureAt s x y (z + delta);
  let fx := - (px - p0) / delta in
  let fz := - (pz - p0) / delta in
  temp ← getTemperatureAt s x y z;
  tempBelow ← getTemperatureAt s x (y - num 100) z;
  let fy := (temp - tempBelow) * dec 1 2 in
  Some (Vector3.mk fx fy fz).

End Program.

End Thermal.

(* ================================================================== *)
(** ** ParticleSystem *)

Module Particles.

(** [THREE.Color], as the red, green and blue the colour array stores. *)
Record Color (F : Type) := mkColor { r : F; g : F; b : F }.
Arguments mkColor {F}.
Arguments r {F}.
Arguments g {F}.
Arguments b {F}.

(** [new THREE.Color().setHSL(h, s, l)], the rendering library's colour
    conversion. *)
Class ColorModel (F : Type) := { setHSL : F -> F -> F -> Color F }.

(** The conversion as three.js writes it (hue taken modulo 1, saturation
    and lightness clamped to [0, 1], then [hue2rgb] per channel), without
    colour management. *)
Section HSL.
Context {F : Type} `{Number F}.
Local Open Scope num_scope.

Definition hue2rgb (p q t : F) : F :=
  let t := if t <? num 0 then t + num 1 else t in
  let t := if t >? num 1 then t - num 1 else t in
  if t <? num 1 / num 6 then p + (q - p) * num 6 * t
  else if t <? num 1 / num 2 then q
  else if t <? num 2 / num 3 then p + (q - p) * num 6 * (num 2 / num 3 - t)
  else p.

Definition threeSetHSL (h s l : F) : Color F :=
  let h := match n_floor h with Some k => h - of_Z k | None => h end in
  let s := n_max (num 0) (n_min (num 1) s) in
  let l := n_max (num 0) (n_min (num 1) l) in
  if negb (n_truthy s) then mkColor l l l
  else
    let p := if dec 5 1 <? l then l + s - l * s else l * (num 1 + s) in
    let q := num 2 * l - p in
    mkColor (hue2rgb q p (h + num 1 / num 3)) (hue2rgb q p h)
      (hue2rgb q p (h - num 1 / num 3)).

End HSL.

#[global] Instance threeColorModel {F : Type} `{Number F} : ColorModel F :=
  {| setHSL := threeSetHSL |}.

(** [this.params] *)
Record Params (F : Type) := mkParams {
  maxParticles : nat;
  particleSize : F;
  particleSpeed : F
}.
Arguments mkParams {F}.
Arguments maxParticles {F}.
Arguments particleSize {F}.
Arguments particleSpeed {F}.

(** The numerical state of a [ParticleSystem] object.  [positions],
    [colors] and [sizes] are [Float32Array]s (fixed length; a write out of
    range is dropped); [velocities] is a plain array of vectors. *)
Record ParticleSystem (F : Type) := mkParticleSystem {
  params : Params F;
  positions : list F;
  colors : list F;
  sizes : list F;
  velocities : list (Vector3.t F);
  isActive : bool
}.
Arguments mkParticleSystem {F}.
Arguments params {F}.
Arguments positions {F}.
Arguments colors {F}.
Arguments sizes {F}.
Arguments velocities {F}.
Arguments isActive {F}.

(** The values [Math.random()] will return, in order. *)
Definition Rng (F : Type) : Type := nat -> F.

(** One call of [Math.random()]: the value and the rest of the stream. *)
Definition random {F : Type} (rng : Rng F) : F * Rng F :=
  (rng 0, fun n => rng (S n)).

Section Program.
Context {F : Type} `{Number F} `{ColorModel F}.
Local Open Scope num_scope.

Definition set_positions (a : list F) (s : ParticleSystem F) : ParticleSystem F :=
  mkParticleSystem (params s) a (colors s) (sizes s) (velocities s) (isActive s).

Definition set_colors (a : list F) (s : ParticleSystem F) : ParticleSystem F :=
  mkParticleSystem (params s) (positions s) a (sizes s) (velocities s) (isActive s).

Definition set_sizes (a : list F) (s : ParticleSystem F) : ParticleSystem F :=
  mkParticleSystem (params s) (positions s) (colors s) a (velocities s) (isActive s).

Definition set_velocities (a : list (Vector3.t F)) (s : ParticleSystem F) : ParticleSystem F :=
  mkParticleSystem (params s) (positions s) (colors s) (sizes s) a (isActive s).

Definition set_isActive (a : bool) (s : ParticleSystem F) : ParticleSystem F :=
  mkParticleSystem (params s) (positions s) (colors s) (sizes s) (velocities s) a.

Definition set_params (p : Params F) (s : ParticleSystem F) : ParticleSystem F :=
  mkParticleSystem p (positions s) (colors s) (sizes s) (velocities s) (isActive s).

(** [a[i] = v] on a [Float32Array]. *)
Definition f32_set (i : nat) (v : F) (a : list F) : list F := <[i := n_fround v]> a.

(** [new Float32Array(n)] *)
Definition f32_new (n : nat) : list F := replicate n (num 0).

(** [temperatureToParticleColor(temperature)] *)
Definition temperatureToParticleColor (temperature : F) : Color F :=
  let minTemp := num (-10) in
  let maxTemp := num 40 in
  let normalized :=
    n_max (num 0) (n_min (num 1) ((temperature - minTemp) / (maxTemp - minTemp))) in
  let hue := (num 1 - normalized) * num 240 / num 360 in
  setHSL hue (dec 8 1) (dec 6 1).

(** The three colour writes [this.colors[i3 .. i3+2] = color.r, .g, .b]. *)
Definition storeColor (i3 : nat) (color : Color F) (s : ParticleSystem F) : ParticleSystem F :=
  let s := set_colors (f32_set i3 (r color) (colors s)) s in
  let s := set_colors (f32_set (i3 + 1) (g color) (colors s)) s in
  set_colors (f32_set (i3 + 2) (b color) (colors s)) s.

(** [initializeParticle(index)] *)
Definition initializeParticle (ts : Thermal.ThermalSystem F) (index : nat)
    (s : ParticleSystem F) (rng : Rng F) : option (ParticleSystem F * Rng F) :=
  let i3 := (index * 3)%nat in
  let '(u, rng) := random rng in
  let x := (u - dec 5 1) * num 4000 in
  let '(u, rng) := random rng in
  let y := u * num 2000 in
  let '(u, rng) := random rng in
  let z := (u - dec 5 1) * num 1000 in
  let s := set_positions (f32_set i3 x (positions s)) s in
  let s := set_positions (f32_set (i3 + 1) y (positions s)) s in
  let s := set_positions (f32_set (i3 + 2) z (positions s)) s in
  temp ← Thermal.getTemperatureAt ts x y z;
  let color := temperatureToParticleColor temp in
  let s := storeColor i3 color s in
  let s := set_sizes (f32_set index (particleSize (params s)) (sizes s)) s in
  velocities' ← array_set index (Vector3.mk (num 0) (num 0) (num 0)) (velocities s);
  Some (set_velocities velocities' s, rng).

(** The loop [for (i = 0; i < maxParticles; i++) initializeParticle(i)]. *)
Definition initializeAll (ts : Thermal.ThermalSystem F) (sr : ParticleSystem F * Rng F) :
    option (ParticleSystem F * Rng F) :=
  for_loop (maxParticles (params sr.1))
    (fun i sr => initializeParticle ts i sr.1 sr.2) sr.

(** [createParticleSystem()]: fresh attribute arrays, then every particle
    initialised.  [this.velocities] is not replaced here. *)
Definition createParticleSystem (ts : Thermal.ThermalSystem F) (s : ParticleSystem F) (rng : Rng F) :
    option (ParticleSystem F * Rng F) :=
  let n := maxParticles (params s) in
  let s := set_positions (f32_new (n * 3)) s in
  let s := set_colors (f32_new (n * 3)) s in
  let s := set_sizes (f32_new n) s in
  initializeAll ts (s, rng).

(** [new ParticleSystem(scene, thermalSystem, params)]: [velocities] is
    the empty array, the typed arrays do not exist yet, the system is
    inactive; then [init()], that is [createParticleSystem()]. *)
Definition constructor (ts : Thermal.ThermalSystem F) (p : Params F) (rng : Rng F) :
    option (ParticleSystem F * Rng F) :=
  createParticleSystem ts (mkParticleSystem p [] [] [] [] false) rng.

(** [checkBoundaries(index)] *)
Definition checkBoundaries (ts : Thermal.ThermalSystem F) (index : nat)
    (s : ParticleSystem F) (rng : Rng F) : option (ParticleSystem F * Rng F) :=
  let i3 := (index * 3)%nat in
  x ← positions s !! i3;
  y ← positions s !! (i3 + 1)%nat;
  z ← positions s !! (i3 + 2)%nat;
  let needsReset :=
    (n_abs x >? num 2000) || (y <? num 0) || (y >? num 2000) || (n_abs z >? num 500) in
  if needsReset then initializeParticle ts index s rng else Some (s, rng).

(** The buoyancy term of [updateParticle]: the temperature at the
    particle against the local constant [baseTemperature = 20]. *)
Definition buoyancyForce (temperature : F) : F :=
  let baseTemperature := num 20 in
  (temperature - baseTemperature) * dec 1 3.

(** The velocity [updateParticle] leaves in [this.velocities[index]]
    before it moves the particle: wind and buoyancy added, drag, and the
    speed limit. *)
Definition updateVelocity (windVector : Vector3.t F) (temperature deltaTime : F)
    (velocity : Vector3.t F) : Vector3.t F :=
  let velocity := Vector3.add velocity (Vector3.multiplyScalar deltaTime windVector) in
  let velocity :=
    Vector3.mk (Vector3.x velocity)
      (Vector3.y velocity + buoyancyForce temperature * deltaTime)
      (Vector3.z velocity) in
  let velocity := Vector3.multiplyScalar (dec 98 2) velocity in
  let maxSpeed := num 20 in
  if Vector3.length velocity >? maxSpeed
  then Vector3.multiplyScalar maxSpeed (Vector3.normalize velocity)
  else velocity.

(** [this.positions[i] += d] *)
Definition f32_add (i : nat) (d : F) (a : list F) : option (list F) :=
  v ← a !! i; Some (f32_set i (v + d) a).

(** The first part of [updateParticle(index, deltaTime)], up to and
    including the position update: the state [checkBoundaries] sees. *)
Definition integrate (ts : Thermal.ThermalSystem F) (index : nat) (deltaTime : F)
    (s : ParticleSystem F) : option (ParticleSystem F) :=
  let i3 := (index * 3)%nat in
  x ← positions s !! i3;
  y ← positions s !! (i3 + 1)%nat;
  z ← positions s !! (i3 + 2)%nat;
  windVector ← Thermal.getWindVectorAt ts x y z;
  temperature ← Thermal.getTemperatureAt ts x y z;
  velocity ← velocities s !! index;
  let velocity := updateVelocity windVector temperature deltaTime velocity in
  let s := set_velocities (<[index := velocity]> (velocities s)) s in
  p ← f32_add i3 (Vector3.x velocity * deltaTime) (positions s);
  let s := set_positions p s in
  p ← f32_add (i3 + 1) (Vector3.y velocity * deltaTime) (positions s);
  let s := set_positions p s in
  p ← f32_add (i3 + 2) (Vector3.z velocity * deltaTime) (positions s);
  Some (set_positions p s).

(** [updateParticle(index, deltaTime)] *)
Definition updateParticle (ts : Thermal.ThermalSystem F) (index : nat) (deltaTime : F)
    (s : ParticleSystem F) (rng : Rng F) : option (ParticleSystem F * Rng F) :=
  let i3 := (index * 3)%nat in
  s ← integrate ts index deltaTime s;
  '(s, rng) ← checkBoundaries ts index s rng;
  x ← positions s !! i3;
  y ← positions s !! (i3 + 1)%nat;
  z ← positions s !! (i3 + 2)%nat;
  temp ← Thermal.getTemperatureAt ts x y z;
  let color := temperatureToParticleColor temp in
  Some (storeColor i3 color s, rng).

(** [update(deltaTime)] *)
Definition update (ts : Thermal.ThermalSystem F) (deltaTime : F)
    (s : ParticleSystem F) (rng : Rng F) : option (ParticleSystem F * Rng F) :=
  if negb (isActive s) then Some (s, rng)
  else
    let speedMultiplier := particleSpeed (params s) in
    for_loop (maxParticles (params s))
      (fun i sr => updateParticle ts i (deltaTime * speedMultiplier) sr.1 sr.2) (s, rng).

(** [start()], [pause()] *)
Definition start (s : ParticleSystem F) : ParticleSystem F := set_isActive true s.

Definition pause (s : ParticleSystem F) : ParticleSystem F := set_isActive false s.

(** [reset()] *)
Definition reset (ts : Thermal.ThermalSystem F) (s : ParticleSystem F) (rng : Rng F) :
    option (ParticleSystem F * Rng F) :=
  initializeAll ts (pause s, rng).

(** [setSpeed(speed)] *)
Definition setSpeed (speed : F) (s : ParticleSystem F) : ParticleSystem F :=
  set_params
    (mkParams (maxParticles (params s)) (particleSize (params s))
       (n_max (dec 1 1) (n_min (num 3) speed))) s.

(** [setParticleCount(count)], for an integer [count]: the capacity is
    clamped and stored, then [dispose()] (scene objects only) and
    [init()]. *)
Definition setParticleCount (ts : Thermal.ThermalSystem F) (count : Z)
    (s : ParticleSystem F) (rng : Rng F) : option (ParticleSystem F * Rng F) :=
  let newCount := Z.max 100 (Z.min 2000 count) in
  let s :=
    set_params
      (mkParams (Z.to_nat newCount) (particleSize (params s)) (particleSpeed (params s))) s in
  createParticleSystem ts s rng.

End Program.

End Particles.

(* ================================================================== *)
(** ** Specification-side definitions *)

(** The position of cell [(h, x, z)] in the order the three nested loops
    visit a grid with [G] columns and rows. *)
Definition visitIndex (G h x z : nat) : nat := (h * G + x) * G + z.

(** The grid [f] with cell [(h, x, z)] holding [v], the other cells and
    all lengths as they are (nothing changes when the cell is missing). *)
Definition put3 {F : Type} (h x z : nat) (v : F) (f : Field3 F) : Field3 F :=
  alter (alter (<[z := v]>) x) h f.

Module ThermalSpec.
Import Thermal.

Section Spec.
Context {F : Type} `{Number F}.
Local Open Scope num_scope.

(** All three grids have [heightLevels] levels of [gridSize] by
    [gridSize] cells. *)
Definition wf (s : ThermalSystem F) : Prop :=
  forall n, shape (field n s) =
    replicate (heightLevels (params s))
      (replicate (gridSize (params s)) (gridSize (params s))).

(** Cell [(h, x, z)] lies in the grid of [p]. *)
Definition inGrid (p : Params F) (h x z : nat) : Prop :=
  h < heightLevels p /\ x < gridSize p /\ z < gridSize p.

(** [s'] has the configuration, intensities and grid dimensions of [s]. *)
Definition sameFrame (s s' : ThermalSystem F) : Prop :=
  params s' = params s /\ heatIntensity s' = heatIntensity s /\
  coldIntensity s' = coldIntensity s /\
  forall n, shape (field n s') = shape (field n s).

(** The ideal-gas density: [pressure / (287.05 * (temperature + 273.15))]. *)
Definition idealGasDensity (pressure temperature : F) : F :=
  pressure / (dec 28705 2 * (temperature + dec 27315 2)).

(** The baseline pressure at an altitude:
    [101325 * (1 - 0.0065 * height / 288.15) ^ 5.255]. *)
Definition baseline (height : F) : F :=
  num 101325 * n_pow (num 1 - dec 65 4 * height / dec 28815 2) (dec 5255 3).

(** The baseline atmosphere a cell of level [h] starts with. *)
Definition initialCell (p : Params F) (n : FieldName) (h : nat) : F :=
  let height := levelHeight p h in
  let T := baseTemperature p - height * dec 65 4 in
  let P := baseline height in
  match n with
  | Temperature => T
  | Pressure => P
  | Density => idealGasDensity P T
  end.

(** The system with cell [(h, x, z)] of grid [n] set to [v]. *)
Definition write (n : FieldName) (h x z : nat) (v : F) (s : ThermalSystem F) :
    ThermalSystem F :=
  with_field n (put3 h x z v (field n s)) s.

(** [s'] is [s] with cell [(h, x, z)] of grid [n] holding [v]: same
    frame, that cell reads [v], every other cell reads as before. *)
Definition cellSet (n : FieldName) (h x z : nat) (v : F) (s s' : ThermalSystem F) : Prop :=
  sameFrame s s' /\
  forall n' h' x' z',
    read n' h' x' z' s' =
      if decide (n' = n /\ (h', x', z') = (h, x, z)) then Some v else read n' h' x' z' s.

(** A system under construction: configuration [p], the three grids
    given by [g], the default intensities. *)
Definition building (p : Params F) (g : FieldName -> Field3 F) : ThermalSystem F :=
  mkThermalSystem p (g Temperature) (g Pressure) (g Density) (num 80) (num 60).

(** The first [k] levels of the initial grid [n]. *)
Definition initialGrid (p : Params F) (n : FieldName) (k : nat) : Field3 F :=
  map (fun h => replicate (gridSize p) (replicate (gridSize p) (initialCell p n h)))
    (seq 0 k).

(** The system right after construction. *)
Definition initialState (p : Params F) : ThermalSystem F :=
  building p (fun n => initialGrid p n (heightLevels p)).

(** The grids while the initialisation loops run: [h] levels complete,
    then [x] complete rows of level [h], then [z] cells of row [x]. *)
Definition rowsDone (p : Params F) (h x : nat) (n : FieldName) : list (list F) :=
  replicate x (replicate (gridSize p) (initialCell p n h)).

Definition cellsDone (p : Params F) (h z : nat) (n : FieldName) : list F :=
  replicate z (initialCell p n h).

(** The temperature pass on one cell holding [t]: the heat term is added
    within 800 of the heat source, the cold term subtracted within 800 of
    the cold source, and the lapse correction subtracted. *)
Definition cellTemperature (p : Params F) (heatI coldI : F) (h x z : nat) (t : F) : F :=
  let heatDist := sourceDist (worldX p x) (worldZ p z) (heatSourcePos p) in
  let coldDist := sourceDist (worldX p x) (worldZ p z) (coldSourcePos p) in
  let t :=
    if heatDist <? num 800
    then t + (num 1 - heatDist / num 800) * heatI / num 100 * dec 1 1
    else t in
  let t :=
    if coldDist <? num 800
    then t - (num 1 - coldDist / num 800) * coldI / num 100 * dec 1 1
    else t in
  t - levelHeight p h * dec 65 4 * dec 1 2.

(** The pressure pass on a cell of level [h] whose temperature is [t]:
    [baseline(height) * (1 - (T_ratio - 1) * 0.1)]. *)
Definition cellPressure (p : Params F) (h : nat) (t : F) : F :=
  let T_ratio := (t + dec 27315 2) / dec 28815 2 in
  baseline (levelHeight p h) * (num 1 - (T_ratio - num 1) * dec 1 1).

(** The wind vector from point queries [P] (pressure) and [T]
    (temperature): one-sided pressure differences at offset 50 for the
    horizontal components, the temperature difference over 100 below for
    the vertical one. *)
Definition windVectorAt (P T : F -> F -> F -> F) (x y z : F) : Vector3.t F :=
  Vector3.mk
    (- (P (x + num 50) y z - P x y z) / num 50)
    ((T x y z - T x (y - num 100) z) * dec 1 2)
    (- (P x y (z + num 50) - P x y z) / num 50).

(** [n] field updates in a row, each with the same [deltaTime]. *)
Fixpoint ticks (deltaTime : F) (n : nat) (s : ThermalSystem F) : option (ThermalSystem F) :=
  match n with
  | 0 => Some s
  | S n' => s' ← updateFields deltaTime s; ticks deltaTime n' s'
  end.

(** The density invariant: every stored density is the ideal-gas density
    of the pressure and temperature stored in the same cell. *)
Definition densityInvariant (s : ThermalSystem F) : Prop :=
  forall h x z, inGrid (params s) h x z ->
    exists t p,
      read Temperature h x z s = Some t /\
      read Pressure h x z s = Some p /\
      read Density h x z s = Some (idealGasDensity p t).

End Spec.

End ThermalSpec.

(** The end-to-end scenario: grid 10 x 10 x 4, heat source at (-800, 0)
    with intensity 100, cold source at (800, 0) with intensity 0, one
    hundred updates with [deltaTime = 0.1], over the real numbers. *)
Module Scenario.
Import Thermal ThermalSpec.
Local Open Scope R_scope.

Definition config : Params R :=
  mkParams 10 4 (mkPos2 (-800) 0) (mkPos2 800 0) 20.

Definition start : option (ThermalSystem R) :=
  s ← constructor config; Some (setColdIntensity 0 (setHeatIntensity 100 s)).

Definition run (n : nat) : option (ThermalSystem R) :=
  s ← start; ticks (1 / 10) n s.

(** The state the scenario starts from. *)
Definition startState : ThermalSystem R :=
  setColdIntensity 0 (setHeatIntensity 100 (initialState config)).

(** The cell nearest a source at the lowest altitude, as the point query
    finds it ... *)
Definition nearHeat (s : ThermalSystem R) : option R := getTemperatureAt s (-800) 0 0.

Definition nearCold (s : ThermalSystem R) : option R := getTemperatureAt s 800 0 0.

(** ... and as the column whose world position is the source's:
    [worldX 3 = -800], [worldX 7 = 800], [worldZ 5 = 0]. *)
Definition atHeat (s : ThermalSystem R) : option R := read Temperature 0 3 5 s.

Definition atCold (s : ThermalSystem R) : option R := read Temperature 0 7 5 s.

(** The scenario's expectation, for a choice of the two cells: after the
    run the hot cell is strictly warmer than it was at the start, and
    strictly colder than the cold cell. *)
Definition expectation (hot cold : ThermalSystem R -> option R) : Prop :=
  exists s0 s100 h0 h100 c100,
    start = Some s0 /\ run 100 = Some s100 /\
    hot s0 = Some h0 /\ hot s100 = Some h100 /\ cold s100 = Some c100 /\
    h0 < h100 /\ h100 < c100.

(** The expectation with the comparison of the two cells turned round:
    the hot cell ends strictly warmer than the cold cell. *)
Definition amended (hot cold : ThermalSystem R -> option R) : Prop :=
  exists s0 s100 h0 h100 c100,
    start = Some s0 /\ run 100 = Some s100 /\
    hot s0 = Some h0 /\ hot s100 = Some h100 /\ cold s100 = Some c100 /\
    h0 < h100 /\ c100 < h100.

(** What the run does: the hot cell goes from [h0] to [h100], the cold
    cell ends at [c100]. *)
Definition outcome (hot cold : ThermalSystem R -> option R) (h0 h100 c100 : R) : Prop :=
  exists s0 s100,
    start = Some s0 /\ run 100 = Some s100 /\
    hot s0 = Some h0 /\ hot s100 = Some h100 /\ cold s100 = Some c100.

End Scenario.

Module ParticleSpec.
Import Particles.

Section Spec.
Context {F : Type} `{Number F} `{ColorModel F}.
Local Open Scope num_scope.

(** The zero vector. *)
Definition zero : Vector3.t F := Vector3.mk (num 0) (num 0) (num 0).

(** The stored position of particle [index]. *)
Definition position (s : ParticleSystem F) (index : nat) : option (F * F * F) :=
  x ← positions s !! (index * 3)%nat;
  y ← positions s !! (index * 3 + 1)%nat;
  z ← positions s !! (index * 3 + 2)%nat;
  Some (x, y, z).

(** The random stream after [k] draws. *)
Definition skip (k : nat) (rng : Rng F) : Rng F := fun n => rng (k + n)%nat.

(** The position the next three draws of the stream give a particle. *)
Definition freshPosition (rng : Rng F) : F * F * F :=
  ((rng 0%nat - dec 5 1) * num 4000,
   rng 1%nat * num 2000,
   (rng 2%nat - dec 5 1) * num 1000).

(** The position array with particle [index] at [xyz]. *)
Definition storePosition (index : nat) (xyz : F * F * F) (a : list F) : list F :=
  f32_set (index * 3 + 2) xyz.2
    (f32_set (index * 3 + 1) xyz.1.2 (f32_set (index * 3) xyz.1.1 a)).

(** A position as a [Float32Array] keeps it. *)
Definition stored (xyz : F * F * F) : F * F * F :=
  (n_fround xyz.1.1, n_fround xyz.1.2, n_fround xyz.2).

(** The boundary test of [checkBoundaries]. *)
Definition needsReset (xyz : F * F * F) : bool :=
  (n_abs xyz.1.1 >? num 2000) || (xyz.1.2 <? num 0) || (xyz.1.2 >? num 2000) ||
  (n_abs xyz.2 >? num 500).

(** The arrays hold [maxParticles] particles: three coordinates each,
    and a velocity for every one of them. *)
Definition wf (s : ParticleSystem F) : Prop :=
  length (positions s) = (maxParticles (params s) * 3)%nat /\
  (maxParticles (params s) <= length (velocities s))%nat.

(** The capacity [setParticleCount(count)] settles on. *)
Definition clampCount (count : Z) : nat := Z.to_nat (Z.max 100 (Z.min 2000 count)).

End Spec.

End ParticleSpec.

(** The same scenario on binary64 numbers. *)
Module Scenario64.
Import Thermal ThermalSpec Floats.

Section Run.
Variable hostPow : float -> float -> float.
Let binary64 : Number float := Binary64.number hostPow.
Local Existing Instance binary64.

Definition config : Params float :=
  mkParams 10 4 (mkPos2 (-800)%float 0%float) (mkPos2 800%float 0%float) 20%float.

Definition start : option (ThermalSystem float) :=
  s ← constructor config;
  Some (setColdIntensity 0%float (setHeatIntensity 100%float s)).

Definition run (n : nat) : option (ThermalSystem float) :=
  s ← start; ticks (dec 1 1) n s.

(** The temperatures the scenario compares after [n] updates: at the two
    point queries, and in the two columns at the sources' positions. *)
Definition readings (n : nat) : option (list (option float)) :=
  s ← run n;
  Some [getTemperatureAt s (-800)%float 0%float 0%float;
        getTemperatureAt s 800%float 0%float 0%float;
        read Temperature 0 3 5 s;
        read Temperature 0 7 5 s].

End Run.

End Scenario64.

(** The application's configuration on binary64 numbers, and the pressure
    query on the freshly built system. *)
Module App64.
Import Thermal Floats.

Section Run.
Variable hostPow : float -> float -> float.
Let binary64 : Number float := Binary64.number hostPow.
Local Existing Instance binary64.

Definition params : Params float :=
  mkParams 50 20 (mkPos2 (-800)%float 0%float) (mkPos2 800%float 0%float) 20%float.

Definition pressuresAt (positions : list (float * float * float)) :
    option (list (option float)) :=
  s ← constructor params;
  Some (map (fun xyz => getPressureAt s xyz.1.1 xyz.1.2 xyz.2) positions).

End Run.

End App64.

(** The application's configuration: grid 50 x 50 x 20, sources at
    (-800, 0) and (800, 0), baseline temperature 20; over the reals. *)
Definition appParams : Thermal.Params R :=
  Thermal.mkParams 50 20 (Thermal.mkPos2 (-800)%R 0%R) (Thermal.mkPos2 800%R 0%R) 20%R.

(** Particle systems over the reals. *)
Module RealParticles.
Import Particles ParticleSpec.
Local Open Scope R_scope.

(** The particle left the box: [|x| > 2000], [y < 0], [y > 2000] or
    [|z| > 500]. *)
Definition outOfBounds (xyz : R * R * R) : Prop :=
  Rabs xyz.1.1 > 2000 \/ xyz.1.2 < 0 \/ xyz.1.2 > 2000 \/ Rabs xyz.2 > 500.

(** The particle is inside the box. *)
Definition inBounds (xyz : R * R * R) : Prop :=
  -2000 <= xyz.1.1 <= 2000 /\ 0 <= xyz.1.2 <= 2000 /\ -500 <= xyz.2 <= 500.

(** Every draw of the random stream lies in [0, 1). *)
Definition unitStream (rng : Rng R) : Prop := forall n, 0 <= rng n < 1.

(** Every particle of the system moves at speed 20 at most. *)
Definition speedBounded (s : ParticleSystem R) : Prop :=
  forall i v, (i < maxParticles (params s))%nat ->
    velocities s !! i = Some v -> Vector3.length v <= 20.

(** The buoyancy term as the specification words it: the temperature at
    the particle against the configured baseline temperature. *)
Definition specBuoyancy (ts : Thermal.ThermalSystem R) (temperature : R) : R :=
  (temperature - Thermal.baseTemperature (Thermal.params ts)) * (1 / 1000).

(** The application's configuration with the baseline temperature set
    to 15 instead of the default 20. *)
Definition coolParams : Thermal.Params R :=
  Thermal.mkParams 50 20 (Thermal.mkPos2 (-800) 0) (Thermal.mkPos2 800 0) 15.

(** One particle with position [xyz] and velocity [v], active. *)
Definition single (xyz : R * R * R) (v : Vector3.t R) : ParticleSystem R :=
  mkParticleSystem (mkParams 1 5 1) [xyz.1.1; xyz.1.2; xyz.2] [0; 0; 0] [5] [v] true.

(** A stream of draws, all one half. *)
Definition halves : Rng R := fun _ => 1 / 2.

(** A system of 101 particles, all moving at (1, 0, 0). *)
Definition moving101 : ParticleSystem R :=
  mkParticleSystem (mkParams 101 5 1) (replicate 303 0) (replicate 303 0)
    (replicate 101 5) (replicate 101 (Vector3.mk 1 0 0)) true.

End RealParticles.

(** Further notions for the field grid, over the reals. *)
Module FieldSpec.
Import Thermal ThermalSpec.
Local Open Scope R_scope.

(** What one temperature pass takes from a cell of level [h] whatever the
    sources do: [height * 0.0065 * 0.01]. *)
Definition lapseStep (p : Params R) (h : nat) : R :=
  levelHeight p h * (65 / 10000) * (1 / 100).

(** The positions the point queries find no cell for. *)
Definition outsideGrid (p : Params R) (x y z : R) : Prop :=
  x < -2000 \/ 2000 <= x \/ y < 0 \/ 100 * INR (heightLevels p) <= y \/
  z < -500 \/ 3500 <= z.

(** The positions they find a cell for. *)
Definition insideGrid (p : Params R) (x y z : R) : Prop :=
  -2000 <= x < 2000 /\ 0 <= y < 100 * INR (heightLevels p) /\ -500 <= z < 3500.

(** The system with both sources switched off, as
    [setHeatIntensity(0); setColdIntensity(0)] leaves it. *)
Definition sourcesOff (s : ThermalSystem R) : ThermalSystem R :=
  setColdIntensity 0 (setHeatIntensity 0 s).

End FieldSpec.

(* ================================================================== *)
(** ** Loops and arrays: basic facts *)

Section LoopFacts.
Context {S : Type}.
Implicit Types (body : nat -> S -> option S) (s : S).

Lemma for_loop_0 body s : for_loop 0 body s = Some s.
Proof. reflexivity. Qed.

Lemma for_loop_S n body s :
  for_loop (Datatypes.S n) body s = for_loop n body s ≫= body n.
Proof. unfold for_loop. rewrite seq_S, foldl_snoc. reflexivity. Qed.

(** The invariant rule: [Inv i] holds before iteration [i]. *)
Lemma for_loop_inv (Inv : nat -> S -> Prop) n body s :
  Inv 0 s ->
  (forall i s, i < n -> Inv i s -> exists s', body i s = Some s' /\ Inv (Datatypes.S i) s') ->
  exists s', for_loop n body s = Some s' /\ Inv n s'.
Proof.
  intros H0 Hstep. induction n as [|n IH].
  - exists s. split; [reflexivity | assumption].
  - destruct IH as (s1 & Hrun & Hinv).
    { intros i s0 Hi. apply Hstep. lia. }
    destruct (Hstep n s1) as (s2 & Hbody & Hinv2); [lia | assumption |].
    exists s2. split; [| assumption].
    rewrite for_loop_S, Hrun. exact Hbody.
Qed.

End LoopFacts.

Lemma visitIndex_inj G h x z h' x' z' :
  x < G -> z < G -> x' < G -> z' < G ->
  visitIndex G h x z = visitIndex G h' x' z' -> h = h' /\ x = x' /\ z = z'.
Proof.
  unfold visitIndex. intros Hx Hz Hx' Hz' E.
  assert (z = z').
  { apply (f_equal (fun n => n mod G)) in E.
    rewrite !(Nat.add_comm _ z), !(Nat.add_comm _ z') in E.
    rewrite !Nat.Div0.mod_add in E. rewrite !Nat.mod_small in E by lia. exact E. }
  subst z'. assert (E2 : h * G + x = h' * G + x') by nia.
  assert (x = x').
  { apply (f_equal (fun n => n mod G)) in E2.
    rewrite !(Nat.add_comm _ x), !(Nat.add_comm _ x') in E2.
    rewrite !Nat.Div0.mod_add in E2. rewrite !Nat.mod_small in E2 by lia. exact E2. }
  subst x'. split; [nia | split; reflexivity].
Qed.

Lemma visitIndex_bound G H h x z :
  h < H -> x < G -> z < G -> visitIndex G h x z < H * G * G.
Proof. unfold visitIndex. intros. nia. Qed.

(** Three nested loops over a grid, with an invariant indexed by the
    number of cells already visited. *)
Lemma for_loop3_inv {S : Type} (H G : nat) (body : nat -> nat -> nat -> S -> option S)
    (Inv : nat -> S -> Prop) (s : S) :
  Inv 0 s ->
  (forall h x z s, h < H -> x < G -> z < G -> Inv (visitIndex G h x z) s ->
     exists s', body h x z s = Some s' /\ Inv (Datatypes.S (visitIndex G h x z)) s') ->
  exists s',
    for_loop H (fun h s => for_loop G (fun x s => for_loop G (fun z s => body h x z s) s) s) s
      = Some s'
    /\ Inv (H * G * G) s'.
Proof.
  intros H0 Hstep.
  destruct (for_loop_inv (fun h s => Inv (h * G * G) s) H
              (fun h s => for_loop G (fun x s => for_loop G (fun z s => body h x z s) s) s) s)
    as (s' & Hrun & Hinv); [exact H0 | | exists s'; split; assumption].
  intros h s1 Hh I1.
  destruct (for_loop_inv (fun x s => Inv ((h * G + x) * G) s) G
              (fun x s => for_loop G (fun z s => body h x z s) s) s1)
    as (s2 & Hrun2 & Hinv2).
  { replace ((h * G + 0) * G) with (h * G * G) by lia. exact I1. }
  { intros x s2 Hx I2.
    destruct (for_loop_inv (fun z s => Inv (visitIndex G h x z) s) G
                (fun z s => body h x z s) s2) as (s3 & Hrun3 & Hinv3).
    - unfold visitIndex. rewrite Nat.add_0_r. exact I2.
    - intros z s3 Hz I3.
      change (visitIndex G h x (Datatypes.S z)) with ((h * G + x) * G + Datatypes.S z).
      rewrite Nat.add_succ_r. apply Hstep; assumption.
    - exists s3. split; [exact Hrun3 |].
      unfold visitIndex in Hinv3.
      replace ((h * G + Datatypes.S x) * G) with ((h * G + x) * G + G) by lia. exact Hinv3. }
  exists s2. split; [exact Hrun2 |].
  replace (Datatypes.S h * G * G) with ((h * G + G) * G) by lia. exact Hinv2.
Qed.

Lemma for_loop3_post {S : Type} (H G : nat) (body : nat -> nat -> nat -> S -> option S)
    (Inv : nat -> S -> Prop) (Q : S -> Prop) (s : S) :
  Inv 0 s ->
  (forall h x z s, h < H -> x < G -> z < G -> Inv (visitIndex G h x z) s ->
     exists s', body h x z s = Some s' /\ Inv (Datatypes.S (visitIndex G h x z)) s') ->
  (forall s', Inv (H * G * G) s' -> Q s') ->
  exists s',
    for_loop H (fun h s => for_loop G (fun x s => for_loop G (fun z s => body h x z s) s) s) s
      = Some s'
    /\ Q s'.
Proof.
  intros H0 Hstep HQ.
  destruct (for_loop3_inv H G body Inv s H0 Hstep) as (s' & Hrun & Hinv).
  exists s'. split; [exact Hrun | apply HQ; exact Hinv].
Qed.

Section ArrayFacts.
Context {A : Type}.
Implicit Types (a : list A) (v : A).

Lemma array_set_lt i v a : i < length a -> array_set i v a = Some (<[i := v]> a).
Proof. intros Hi. unfold array_set. rewrite decide_True by assumption. reflexivity. Qed.

Lemma array_set_end i v a : i = length a -> array_set i v a = Some (a ++ [v]).
Proof.
  intros ->. unfold array_set.
  rewrite decide_False by lia. rewrite decide_True by reflexivity. reflexivity.
Qed.

Lemma array_set_length i v a a' :
  array_set i v a = Some a' -> length a' = Nat.max (length a) (Datatypes.S i).
Proof.
  unfold array_set. repeat case_decide; intros E; simplify_eq.
  - rewrite length_insert. lia.
  - rewrite length_app. simpl. lia.
Qed.

Lemma array_set_lookup i v a a' :
  array_set i v a = Some a' -> a' !! i = Some v.
Proof.
  unfold array_set. repeat case_decide; intros E; simplify_eq.
  - apply list_lookup_insert_eq. assumption.
  - apply list_lookup_middle. reflexivity.
Qed.

Lemma array_set_lookup_ne i j v a a' :
  array_set i v a = Some a' -> i <> j -> a' !! j = a !! j.
Proof.
  unfold array_set. repeat case_decide; intros E Hne; simplify_eq.
  - apply list_lookup_insert_ne. assumption.
  - destruct (decide (j < length a)).
    + apply lookup_app_l. assumption.
    + rewrite lookup_app_r by lia.
      rewrite (lookup_ge_None_2 a j) by lia.
      apply lookup_ge_None_2. simpl. lia.
Qed.

End ArrayFacts.

Section Field3Facts.
Context {F : Type}.
Implicit Types (f : Field3 F) (v w : F).

Lemma shape_put3 h x z v f : shape (put3 h x z v f) = shape f.
Proof.
  unfold shape, put3. apply list_eq. intros i.
  rewrite !list_lookup_fmap.
  destruct (decide (i = h)) as [->|Hne].
  - rewrite list_lookup_alter_eq. destruct (f !! h) as [plane|]; [simpl | reflexivity].
    f_equal. apply list_eq. intros j. rewrite !list_lookup_fmap.
    destruct (decide (j = x)) as [->|Hne].
    + rewrite list_lookup_alter_eq. destruct (plane !! x) as [row|]; [simpl | reflexivity].
      rewrite length_insert. reflexivity.
    + rewrite list_lookup_alter_ne by congruence. reflexivity.
  - rewrite list_lookup_alter_ne by congruence. reflexivity.
Qed.

Lemma get3_put3_eq h x z v w f :
  get3 h x z f = Some w -> get3 h x z (put3 h x z v f) = Some v.
Proof.
  unfold get3, put3. intros E. rewrite list_lookup_alter_eq.
  destruct (f !! h) as [plane|]; [simpl in * | discriminate].
  rewrite list_lookup_alter_eq.
  destruct (plane !! x) as [row|]; [simpl in * | discriminate].
  apply list_lookup_insert_eq. apply lookup_lt_Some in E. exact E.
Qed.

Lemma get3_put3_ne h x z v h' x' z' f :
  (h', x', z') <> (h, x, z) -> get3 h' x' z' (put3 h x z v f) = get3 h' x' z' f.
Proof.
  unfold get3, put3. intros Hne.
  destruct (decide (h' = h)) as [->|Hh]; [| rewrite list_lookup_alter_ne by congruence; reflexivity].
  rewrite list_lookup_alter_eq. destruct (f !! h) as [plane|]; [simpl | reflexivity].
  destruct (decide (x' = x)) as [->|Hx]; [| rewrite list_lookup_alter_ne by congruence; reflexivity].
  rewrite list_lookup_alter_eq. destruct (plane !! x) as [row|]; [simpl | reflexivity].
  apply list_lookup_insert_ne. congruence.
Qed.

(** A write to a cell that exists replaces that cell. *)
Lemma set3_put3 h x z v w f :
  get3 h x z f = Some w -> set3 h x z v f = Some (put3 h x z v f).
Proof.
  unfold get3, set3, put3. intros E.
  destruct (f !! h) as [plane|] eqn:Ef; [simpl in * | discriminate].
  destruct (plane !! x) as [row|] eqn:Ep; [simpl in * | discriminate].
  rewrite array_set_lt by (apply lookup_lt_Some in E; exact E). simpl. f_equal.
  apply list_eq. intros i. destruct (decide (i = h)) as [->|Hne].
  - rewrite list_lookup_alter_eq, Ef. simpl.
    rewrite list_lookup_insert_eq by (apply lookup_lt_Some in Ef; exact Ef). f_equal.
    apply list_eq. intros j. destruct (decide (j = x)) as [->|Hne].
    + rewrite list_lookup_alter_eq, Ep. simpl.
      rewrite list_lookup_insert_eq by (apply lookup_lt_Some in Ep; exact Ep). reflexivity.
    + rewrite list_lookup_alter_ne, list_lookup_insert_ne by congruence. reflexivity.
  - rewrite list_lookup_alter_ne, list_lookup_insert_ne by congruence. reflexivity.
Qed.

(** In a grid of [H] levels of [G] by [G] cells every cell in range
    exists. *)
Lemma get3_in_shape H G h x z f :
  shape f = replicate H (replicate G G) -> h < H -> x < G -> z < G ->
  is_Some (get3 h x z f).
Proof.
  unfold shape, get3. intros Hs Hh Hx Hz.
  assert (E1 : (map (map length) f) !! h = Some (replicate G G)).
  { rewrite Hs. apply lookup_replicate_2. exact Hh. }
  change (map (map length) f) with (map length <$> f) in E1.
  rewrite list_lookup_fmap in E1.
  destruct (f !! h) as [plane|]; [simpl in * | discriminate].
  assert (E2 : (map length plane) !! x = Some G).
  { injection E1 as ->. apply lookup_replicate_2. exact Hx. }
  change (map length plane) with (length <$> plane) in E2.
  rewrite list_lookup_fmap in E2.
  destruct (plane !! x) as [row|]; [simpl in * | discriminate].
  injection E2 as E2. apply lookup_lt_is_Some. lia.
Qed.

(** The writes of the initialisation loops, each at the end of what has
    been built so far. *)
Lemma new_plane_end h f : length f = h -> new_plane h f = Some (f ++ [[]]).
Proof. intros E. unfold new_plane. apply array_set_end. congruence. Qed.

Lemma new_row_end h x f (plane : list (list F)) :
  length f = h -> length plane = x ->
  new_row h x (f ++ [plane]) = Some (f ++ [plane ++ [[]]]).
Proof.
  intros Eh Ex. unfold new_row.
  rewrite list_lookup_middle by congruence. simpl.
  rewrite array_set_end by congruence. simpl. f_equal.
  replace h with (length f + 0) by lia. rewrite insert_app_r. reflexivity.
Qed.

Lemma set3_end h x z v f (plane : list (list F)) (row : list F) :
  length f = h -> length plane = x -> length row = z ->
  set3 h x z v (f ++ [plane ++ [row]]) = Some (f ++ [plane ++ [row ++ [v]]]).
Proof.
  intros Eh Ex Ez. unfold set3.
  rewrite list_lookup_middle by congruence. simpl.
  rewrite list_lookup_middle by congruence. simpl.
  rewrite array_set_end by congruence. simpl. f_equal.
  replace h with (length f + 0) by lia. rewrite insert_app_r. simpl. do 2 f_equal.
  replace x with (length plane + 0) by lia. rewrite insert_app_r. reflexivity.
Qed.

Lemma get3_end h x z v f (plane : list (list F)) (row : list F) :
  length f = h -> length plane = x -> length row = z ->
  get3 h x z (f ++ [plane ++ [row ++ [v]]]) = Some v.
Proof.
  intros Eh Ex Ez. unfold get3.
  rewrite list_lookup_middle by congruence. simpl.
  rewrite list_lookup_middle by congruence. simpl.
  apply list_lookup_middle. congruence.
Qed.

End Field3Facts.

(* ================================================================== *)
(** ** ThermalSystem: reads and writes of cells *)

Section ThermalCells.
Import Thermal ThermalSpec.
Context {F : Type} `{Number F}.
Implicit Types (s : ThermalSystem F) (n : FieldName).

Lemma field_with_field n n' (f : Field3 F) s :
  field n' (with_field n f s) = if decide (n' = n) then f else field n' s.
Proof. destruct n, n'; reflexivity. Qed.

Lemma assign_write n h x z v w s :
  read n h x z s = Some w -> assign n h x z v s = Some (write n h x z v s).
Proof.
  unfold read, assign, on_field, write. intros E.
  rewrite (set3_put3 h x z v w) by exact E. reflexivity.
Qed.

Lemma read_write n h x z v w s n' h' x' z' :
  read n h x z s = Some w ->
  read n' h' x' z' (write n h x z v s) =
    if decide (n' = n /\ (h', x', z') = (h, x, z)) then Some v else read n' h' x' z' s.
Proof.
  unfold read, write. intros E. rewrite field_with_field.
  destruct (decide (n' = n)) as [->|Hn].
  - destruct (decide ((h', x', z') = (h, x, z))) as [Hc|Hc].
    + rewrite decide_True by (split; [reflexivity | exact Hc]).
      injection Hc as -> -> ->. apply (get3_put3_eq h x z v w). exact E.
    + rewrite decide_False by tauto. apply get3_put3_ne. exact Hc.
  - rewrite decide_False by tauto. reflexivity.
Qed.

Lemma sameFrame_refl s : sameFrame s s.
Proof. repeat split; reflexivity. Qed.

Lemma sameFrame_trans s1 s2 s3 : sameFrame s1 s2 -> sameFrame s2 s3 -> sameFrame s1 s3.
Proof.
  intros (Ep & Eh & Ec & Es) (Ep' & Eh' & Ec' & Es').
  split; [congruence |]. split; [congruence |]. split; [congruence |].
  intros n. rewrite Es', Es. reflexivity.
Qed.

Lemma sameFrame_write n h x z v s : sameFrame s (write n h x z v s).
Proof.
  unfold write. split; [destruct n; reflexivity |].
  split; [destruct n; reflexivity |]. split; [destruct n; reflexivity |].
  intros n'. rewrite field_with_field. case_decide; [subst n' | reflexivity].
  apply shape_put3.
Qed.

Lemma sameFrame_wf s s' : sameFrame s s' -> wf s -> wf s'.
Proof. intros (Ep & _ & _ & Es) Hwf n. rewrite Es, Ep. apply Hwf. Qed.

Lemma read_in_grid n h x z s : wf s -> inGrid (params s) h x z -> is_Some (read n h x z s).
Proof.
  intros Hwf (Hh & Hx & Hz). unfold read.
  eapply get3_in_shape; [apply Hwf | assumption ..].
Qed.

(** The read-modify-write [this.<n>Field[h][x][z] = g(this.<n>Field[h][x][z])]. *)
Lemma modify_write n h x z (g : F -> F) t s :
  read n h x z s = Some t ->
  (t ← read n h x z s; assign n h x z (g t) s) = Some (write n h x z (g t) s).
Proof. intros E. rewrite E. simpl. apply (assign_write n h x z (g t) t). exact E. Qed.

End ThermalCells.

(* ================================================================== *)
(** ** ThermalSystem: construction *)

Section ThermalInit.
Import Thermal ThermalSpec.
Context {F : Type} `{Number F}.
Implicit Types (p : Params F) (n : FieldName).

Lemma length_initialGrid p n k : length (initialGrid p n k) = k.
Proof. unfold initialGrid. rewrite length_map, length_seq. reflexivity. Qed.

Lemma initialGrid_S p n k :
  initialGrid p n (S k) =
  initialGrid p n k ++ [replicate (gridSize p) (replicate (gridSize p) (initialCell p n k))].
Proof. unfold initialGrid. rewrite seq_S, map_app. reflexivity. Qed.

Lemma building_ext p (g g' : FieldName -> Field3 F) :
  (forall n, g n = g' n) -> building p g = building p g'.
Proof. intros E. unfold building. rewrite !E. reflexivity. Qed.

Lemma on_field_building p n (op : Field3 F -> option (Field3 F)) g f :
  op (g n) = Some f ->
  on_field n op (building p g) =
    Some (building p (fun n' => if decide (n' = n) then f else g n')).
Proof. intros E. unfold on_field. destruct n; simpl; rewrite E; reflexivity. Qed.

Lemma assign_building_end p n h x z v g (f0 : Field3 F) plane row :
  g n = f0 ++ [plane ++ [row]] ->
  length f0 = h -> length plane = x -> length row = z ->
  assign n h x z v (building p g) =
    Some (building p (fun n' =>
            if decide (n' = n) then f0 ++ [plane ++ [row ++ [v]]] else g n')).
Proof.
  intros E Eh Ex Ez. unfold assign. apply on_field_building.
  rewrite E. apply set3_end; assumption.
Qed.

Lemma read_building_end p n h x z v g (f0 : Field3 F) plane row :
  g n = f0 ++ [plane ++ [row ++ [v]]] ->
  length f0 = h -> length plane = x -> length row = z ->
  read n h x z (building p g) = Some v.
Proof.
  intros E Eh Ex Ez. unfold read.
  replace (field n (building p g)) with (g n) by (destruct n; reflexivity).
  rewrite E. apply get3_end; assumption.
Qed.

(** The innermost loop fills row [x] of level [h]. *)
Lemma initializeFields_row p h x :
  for_loop (gridSize p)
    (fun z s =>
       let height := levelHeight (params s) h in
       let baseTemp := (baseTemperature (params s) - height * dec 65 4)%num in
       s ← assign Temperature h x z baseTemp s;
       s ← assign Pressure h x z (calculateBasePressure height) s;
       p ← read Pressure h x z s;
       t ← read Temperature h x z s;
       assign Density h x z (calculateDensity p t) s)
    (building p (fun n => initialGrid p n h ++ [rowsDone p h x n ++ [[]]]))
  = Some (building p (fun n => initialGrid p n h ++ [rowsDone p h (S x) n])).
Proof.
  destruct (for_loop_inv
    (fun z s => s = building p (fun n => initialGrid p n h ++ [rowsDone p h x n ++ [cellsDone p h z n]]))
    (gridSize p)
    (fun z s =>
       let height := levelHeight (params s) h in
       let baseTemp := (baseTemperature (params s) - height * dec 65 4)%num in
       s ← assign Temperature h x z baseTemp s;
       s ← assign Pressure h x z (calculateBasePressure height) s;
       p ← read Pressure h x z s;
       t ← read Temperature h x z s;
       assign Density h x z (calculateDensity p t) s)
    (building p (fun n => initialGrid p n h ++ [rowsDone p h x n ++ [[]]])))
    as (s' & Hrun & ->).
  - reflexivity.
  - intros z s Hz ->. eexists. split; [| reflexivity].
    cbn zeta.
    assert (Hlen : forall n, length (initialGrid p n h) = h /\
              length (rowsDone p h x n) = x /\ length (cellsDone p h z n) = z).
    { intros n. split; [apply length_initialGrid |].
      split; [unfold rowsDone | unfold cellsDone]; apply length_replicate. }
    erewrite (assign_building_end p Temperature) by (first [reflexivity | apply Hlen]).
    cbn [mbind option_bind].
    erewrite (assign_building_end p Pressure) by (first [reflexivity | apply Hlen]).
    cbn [mbind option_bind].
    erewrite (read_building_end p Pressure) by (first [reflexivity | apply Hlen]).
    cbn [mbind option_bind].
    erewrite (read_building_end p Temperature) by (first [reflexivity | apply Hlen]).
    cbn [mbind option_bind].
    erewrite (assign_building_end p Density) by (first [reflexivity | apply Hlen]).
    f_equal. apply building_ext. intros n.
    unfold cellsDone. rewrite replicate_S_end.
    destruct n; reflexivity.
  - rewrite Hrun. f_equal. apply building_ext. intros n.
    unfold rowsDone, cellsDone. rewrite replicate_S_end. reflexivity.
Qed.

Lemma new_row_building p n h x g (f0 : Field3 F) plane :
  g n = f0 ++ [plane] -> length f0 = h -> length plane = x ->
  on_field n (new_row h x) (building p g) =
    Some (building p (fun n' => if decide (n' = n) then f0 ++ [plane ++ [[]]] else g n')).
Proof.
  intros E Eh Ex. apply on_field_building. rewrite E. apply new_row_end; assumption.
Qed.

Lemma new_plane_building p n h g :
  length (g n) = h ->
  on_field n (new_plane h) (building p g) =
    Some (building p (fun n' => if decide (n' = n) then g n ++ [[]] else g n')).
Proof. intros Eh. apply on_field_building. apply new_plane_end. exact Eh. Qed.

(** The middle loop fills level [h]. *)
Lemma initializeFields_level p h :
  for_loop (gridSize p)
    (fun x s =>
       s ← on_field Temperature (new_row h x) s;
       s ← on_field Pressure (new_row h x) s;
       s ← on_field Density (new_row h x) s;
       for_loop (gridSize p)
         (fun z s =>
            let height := levelHeight (params s) h in
            let baseTemp := (baseTemperature (params s) - height * dec 65 4)%num in
            s ← assign Temperature h x z baseTemp s;
            s ← assign Pressure h x z (calculateBasePressure height) s;
            p ← read Pressure h x z s;
            t ← read Temperature h x z s;
            assign Density h x z (calculateDensity p t) s) s)
    (building p (fun n => initialGrid p n h ++ [[]]))
  = Some (building p (fun n => initialGrid p n (S h))).
Proof.
  match goal with |- for_loop ?G ?body ?s0 = _ =>
    destruct (for_loop_inv
      (fun x s => s = building p (fun n => initialGrid p n h ++ [rowsDone p h x n]))
      G body s0) as (s' & Hrun & ->)
  end.
  - reflexivity.
  - intros x s Hx ->. eexists. split; [| reflexivity].
    assert (Hlen : forall n, length (initialGrid p n h) = h /\ length (rowsDone p h x n) = x).
    { intros n. split; [apply length_initialGrid | unfold rowsDone; apply length_replicate]. }
    erewrite (new_row_building p Temperature) by (first [reflexivity | apply Hlen]).
    cbn [mbind option_bind].
    erewrite (new_row_building p Pressure) by (first [reflexivity | apply Hlen]).
    cbn [mbind option_bind].
    erewrite (new_row_building p Density) by (first [reflexivity | apply Hlen]).
    cbn [mbind option_bind].
    exact (initializeFields_row p h x).
  - rewrite Hrun. f_equal. apply building_ext. intros n.
    rewrite initialGrid_S. reflexivity.
Qed.

(** Construction builds the baseline atmosphere. *)
Lemma initializeFields_building p :
  initializeFields (building p (fun _ => [])) = Some (initialState p).
Proof.
  unfold initializeFields. cbn zeta.
  change (params (building p (fun _ => []))) with p.
  match goal with |- for_loop ?H ?body ?s0 = _ =>
    destruct (for_loop_inv
      (fun h s => s = building p (fun n => initialGrid p n h)) H body s0)
      as (s' & Hrun & ->)
  end.
  - reflexivity.
  - intros h s Hh ->. eexists. split; [| reflexivity].
    erewrite (new_plane_building p Temperature) by apply length_initialGrid.
    cbn [mbind option_bind].
    erewrite (new_plane_building p Pressure) by apply length_initialGrid.
    cbn [mbind option_bind].
    erewrite (new_plane_building p Density) by apply length_initialGrid.
    cbn [mbind option_bind].
    exact (initializeFields_level p h).
  - rewrite Hrun. reflexivity.
Qed.

Lemma constructor_initialState p : constructor p = Some (initialState p).
Proof. apply initializeFields_building. Qed.

Lemma field_initialState p n :
  field n (initialState p) = initialGrid p n (heightLevels p).
Proof. destruct n; reflexivity. Qed.

Lemma get3_initialGrid p n k h x z :
  h < k -> x < gridSize p -> z < gridSize p ->
  get3 h x z (initialGrid p n k) = Some (initialCell p n h).
Proof.
  intros Hh Hx Hz. unfold get3, initialGrid.
  change (map ?f ?l) with (f <$> l).
  rewrite list_lookup_fmap, lookup_seq_lt by exact Hh. simpl.
  rewrite lookup_replicate_2 by exact Hx. simpl.
  apply lookup_replicate_2. exact Hz.
Qed.

Lemma read_initialState p n h x z :
  inGrid p h x z -> read n h x z (initialState p) = Some (initialCell p n h).
Proof.
  intros (Hh & Hx & Hz). unfold read. rewrite field_initialState.
  apply get3_initialGrid; assumption.
Qed.

Lemma shape_initialGrid p n k :
  shape (initialGrid p n k) = replicate k (replicate (gridSize p) (gridSize p)).
Proof.
  unfold shape, initialGrid. rewrite map_map.
  induction k as [|k IH]; [reflexivity |].
  rewrite seq_S, map_app, IH, replicate_S_end. simpl. do 2 f_equal.
  change (map ?f ?l) with (f <$> l). rewrite fmap_replicate, length_replicate.
  reflexivity.
Qed.

Lemma initialState_wf p : wf (initialState p).
Proof. intros n. rewrite field_initialState. apply shape_initialGrid. Qed.

Lemma initialState_densityInvariant p : densityInvariant (initialState p).
Proof.
  intros h x z Hin. change (params (initialState p)) with p in Hin.
  exists (initialCell p Temperature h), (initialCell p Pressure h).
  rewrite !read_initialState by exact Hin. repeat split; reflexivity.
Qed.

End ThermalInit.

(* ================================================================== *)
(** ** ThermalSystem: the two passes of an update *)

Section ThermalUpdate.
Import Thermal ThermalSpec.
Context {F : Type} `{Number F}.
Implicit Types (s : ThermalSystem F) (n : FieldName).
Local Open Scope num_scope.

Lemma put3_id h x z (v : F) (f : Field3 F) : get3 h x z f = Some v -> put3 h x z v f = f.
Proof.
  unfold get3, put3. intros E.
  destruct (f !! h) as [plane|] eqn:Ef; [simpl in E | discriminate].
  destruct (plane !! x) as [row|] eqn:Ep; [simpl in E | discriminate].
  apply list_eq. intros i. destruct (decide (i = h)) as [->|Hne].
  - rewrite list_lookup_alter_eq, Ef. simpl. f_equal.
    apply list_eq. intros j. destruct (decide (j = x)) as [->|Hne].
    + rewrite list_lookup_alter_eq, Ep. simpl. f_equal.
      apply list_insert_id. exact E.
    + rewrite list_lookup_alter_ne by congruence. reflexivity.
  - rewrite list_lookup_alter_ne by congruence. reflexivity.
Qed.

Lemma write_id n h x z v s : read n h x z s = Some v -> write n h x z v s = s.
Proof.
  unfold read, write. intros E. rewrite put3_id by exact E.
  destruct s, n; reflexivity.
Qed.

Lemma cellSet_write n h x z v w s :
  read n h x z s = Some w -> cellSet n h x z v s (write n h x z v s).
Proof.
  intros E. split; [apply sameFrame_write |].
  intros n' h' x' z'. apply (read_write n h x z v w). exact E.
Qed.

Lemma cellSet_trans n h x z v1 v2 s s1 s2 :
  cellSet n h x z v1 s s1 -> cellSet n h x z v2 s1 s2 -> cellSet n h x z v2 s s2.
Proof.
  intros (Hf1 & Hr1) (Hf2 & Hr2). split; [eapply sameFrame_trans; eassumption |].
  intros n' h' x' z'. rewrite Hr2, Hr1. case_decide; reflexivity.
Qed.

Lemma cellSet_read n h x z v s s' : cellSet n h x z v s s' -> read n h x z s' = Some v.
Proof.
  intros (_ & Hr). rewrite Hr. rewrite decide_True by (split; reflexivity). reflexivity.
Qed.

(** A guarded read-modify-write of one cell. *)
Lemma cond_modify n h x z (c : bool) (g : F -> F) t s :
  read n h x z s = Some t ->
  exists s',
    (if c then t ← read n h x z s; assign n h x z (g t) s else Some s) = Some s'
    /\ cellSet n h x z (if c then g t else t) s s'.
Proof.
  intros E. destruct c.
  - exists (write n h x z (g t) s). split; [apply modify_write; exact E |].
    apply (cellSet_write n h x z (g t) t). exact E.
  - exists s. split; [reflexivity |].
    rewrite <- (write_id n h x z t s E) at 2.
    apply (cellSet_write n h x z t t). exact E.
Qed.

(** The temperature pass: every cell of the grid goes through
    [cellTemperature]; pressure and density are not touched. *)
Lemma updateTemperatureField_cells s :
  wf s ->
  exists s',
    updateTemperatureField s = Some s' /\
    sameFrame s s' /\
    forall n h x z, inGrid (params s) h x z ->
      read n h x z s' =
        match n with
        | Temperature =>
            cellTemperature (params s) (heatIntensity s) (coldIntensity s) h x z
              <$> read Temperature h x z s
        | _ => read n h x z s
        end.
Proof.
  intros Hwf. unfold updateTemperatureField. cbn zeta.
  eapply (for_loop3_post _ _ _
    (fun k s1 =>
       sameFrame s s1 /\
       forall n h x z, inGrid (params s) h x z ->
         read n h x z s1 =
           if decide (n = Temperature /\ visitIndex (gridSize (params s)) h x z < k)
           then cellTemperature (params s) (heatIntensity s) (coldIntensity s) h x z
                  <$> read Temperature h x z s
           else read n h x z s)).
  - split; [apply sameFrame_refl |]. intros n h x z _.
    rewrite decide_False by lia. reflexivity.
  - intros h x z s1 Hh Hx Hz (Hfr & Hrd).
    assert (Hin : inGrid (params s) h x z) by (repeat split; assumption).
    destruct (read_in_grid Temperature h x z s Hwf Hin) as (t & Et).
    assert (Et1 : read Temperature h x z s1 = Some t).
    { rewrite Hrd by exact Hin. rewrite decide_False by lia. exact Et. }
    destruct Hfr as (Ep & Eh & Ec & Es).
    edestruct (cond_modify Temperature h x z) as (s2 & -> & Hs2); [exact Et1 |].
    cbn [mbind option_bind].
    pose proof (cellSet_read _ _ _ _ _ _ _ Hs2) as Et2.
    edestruct (cond_modify Temperature h x z) as (s3 & -> & Hs3); [exact Et2 |].
    cbn [mbind option_bind].
    pose proof (cellSet_read _ _ _ _ _ _ _ Hs3) as Et3.
    rewrite Et3. cbn [mbind option_bind].
    erewrite assign_write by exact Et3.
    eexists. split; [reflexivity |].
    match type of Et3 with _ = Some ?t3 =>
      pose proof (cellSet_write Temperature h x z
        (t3 - levelHeight (params s3) h * dec 65 4 * dec 1 2) t3 s3 Et3) as Hs4
    end.
    pose proof (cellSet_trans _ _ _ _ _ _ _ _ _ (cellSet_trans _ _ _ _ _ _ _ _ _ Hs2 Hs3) Hs4)
      as (Hfr4 & Hrd4).
    destruct Hs2 as ((Ep2 & Eh2 & Ec2 & _) & _). destruct Hs3 as ((Ep3 & _) & _).
    split.
    { eapply sameFrame_trans; [| exact Hfr4]. repeat split; assumption. }
    intros n h' x' z' Hin'. rewrite Hrd4.
    destruct (decide ((h', x', z') = (h, x, z))) as [Hc|Hc].
    + injection Hc as -> -> ->. destruct (decide (n = Temperature)) as [->|Hn].
      * rewrite decide_True by (split; reflexivity).
        rewrite decide_True by (split; [reflexivity | lia]).
        rewrite Et. simpl. f_equal. unfold cellTemperature.
        rewrite Ep3, Ep2, Ec2, Ep, Eh, Ec. reflexivity.
      * rewrite !decide_False by tauto. rewrite Hrd by exact Hin.
        rewrite decide_False by tauto. reflexivity.
    + rewrite decide_False by tauto. rewrite Hrd by exact Hin'.
      destruct Hin' as (Hh' & Hx' & Hz').
      assert (visitIndex (gridSize (params s)) h' x' z' <>
              visitIndex (gridSize (params s)) h x z).
      { intros E. apply visitIndex_inj in E; try assumption.
        destruct E as (-> & -> & ->). apply Hc. reflexivity. }
      repeat case_decide; first [reflexivity | exfalso; intuition lia].
  - intros s' (Hfr & Hrd). split; [exact Hfr |].
    intros n h x z Hin. rewrite Hrd by exact Hin.
    destruct Hin as (Hh & Hx & Hz).
    pose proof (visitIndex_bound (gridSize (params s)) _ h x z Hh Hx Hz).
    destruct n; [rewrite decide_True by tauto | rewrite decide_False by (intros [? _]; discriminate) ..];
      reflexivity.
Qed.

(** The pressure pass: every cell of the grid gets the pressure and the
    density that follow from its temperature, which is not touched. *)
Lemma updatePressureField_cells s :
  wf s ->
  exists s',
    updatePressureField s = Some s' /\
    sameFrame s s' /\
    forall n h x z, inGrid (params s) h x z ->
      read n h x z s' =
        (fun t =>
           match n with
           | Temperature => t
           | Pressure => cellPressure (params s) h t
           | Density => idealGasDensity (cellPressure (params s) h t) t
           end) <$> read Temperature h x z s.
Proof.
  intros Hwf. unfold updatePressureField. cbn zeta.
  eapply (for_loop3_post _ _ _
    (fun k s1 =>
       sameFrame s s1 /\
       forall n h x z, inGrid (params s) h x z ->
         read n h x z s1 =
           if decide (n <> Temperature /\ visitIndex (gridSize (params s)) h x z < k)
           then (fun t =>
                   match n with
                   | Temperature => t
                   | Pressure => cellPressure (params s) h t
                   | Density => idealGasDensity (cellPressure (params s) h t) t
                   end) <$> read Temperature h x z s
           else read n h x z s)).
  - split; [apply sameFrame_refl |]. intros n h x z _.
    rewrite decide_False by lia. reflexivity.
  - intros h x z s1 Hh Hx Hz (Hfr & Hrd).
    assert (Hin : inGrid (params s) h x z) by (repeat split; assumption).
    assert (Hold : forall n, exists v, read n h x z s = Some v /\ read n h x z s1 = Some v).
    { intros n. destruct (read_in_grid n h x z s Hwf Hin) as (v & Ev).
      exists v. split; [exact Ev |]. rewrite Hrd by exact Hin.
      rewrite decide_False by lia. exact Ev. }
    destruct (Hold Temperature) as (t & Et & Et1).
    destruct (Hold Pressure) as (p0 & _ & Ep1).
    destruct (Hold Density) as (d0 & _ & Ed1).
    rewrite Et1. cbn [mbind option_bind].
    erewrite assign_write by exact Ep1. cbn [mbind option_bind].
    match goal with |- context [write Pressure h x z ?pv s1] =>
      assert (Ed2 : read Density h x z (write Pressure h x z pv s1) = Some d0)
        by (rewrite (read_write _ _ _ _ _ _ _ _ _ _ _ Ep1);
            rewrite decide_False by (intros [? _]; discriminate); exact Ed1);
      pose proof (cellSet_write Pressure h x z pv p0 s1 Ep1) as (Hf2 & Hr2)
    end.
    erewrite assign_write by exact Ed2.
    eexists. split; [reflexivity |].
    match goal with |- context [write Density h x z ?dv ?s2] =>
      pose proof (cellSet_write Density h x z dv d0 s2 Ed2) as (Hf3 & Hr3)
    end.
    split; [eapply sameFrame_trans; [exact Hfr | eapply sameFrame_trans; eassumption] |].
    destruct Hfr as (Ep & _).
    intros n h' x' z' Hin'. rewrite Hr3, Hr2, Hrd by exact Hin'.
    destruct (decide ((h', x', z') = (h, x, z))) as [Hc|Hc].
    + injection Hc as -> -> ->. rewrite Et. simpl.
      destruct n.
      * rewrite !decide_False by (intros [? _]; congruence). reflexivity.
      * rewrite decide_False by (intros [? _]; discriminate).
        rewrite decide_True by (split; reflexivity).
        rewrite decide_True by (split; [discriminate | lia]).
        unfold cellPressure. rewrite Ep. reflexivity.
      * rewrite decide_True by (split; reflexivity).
        rewrite decide_True by (split; [discriminate | lia]).
        unfold cellPressure. rewrite Ep. reflexivity.
    + rewrite !(decide_False (P := _ /\ (h', x', z') = (h, x, z))) by tauto.
      destruct Hin' as (Hh' & Hx' & Hz').
      assert (visitIndex (gridSize (params s)) h' x' z' <>
              visitIndex (gridSize (params s)) h x z).
      { intros E. apply visitIndex_inj in E; try assumption.
        destruct E as (-> & -> & ->). apply Hc. reflexivity. }
      repeat case_decide; first [reflexivity | exfalso; intuition lia].
  - intros s' (Hfr & Hrd). split; [exact Hfr |].
    intros n h x z Hin. rewrite Hrd by exact Hin.
    destruct (read_in_grid Temperature h x z s Hwf Hin) as (t & Et).
    destruct Hin as (Hh & Hx & Hz).
    pose proof (visitIndex_bound (gridSize (params s)) _ h x z Hh Hx Hz).
    destruct n.
    + rewrite decide_False by tauto. rewrite Et. reflexivity.
    + rewrite decide_True by (split; [discriminate | assumption]). reflexivity.
    + rewrite decide_True by (split; [discriminate | assumption]). reflexivity.
Qed.

(** One field update, cell by cell. *)
Lemma updateFields_cells (deltaTime : F) s :
  wf s ->
  exists s1 s',
    updateTemperatureField s = Some s1 /\
    updatePressureField s1 = Some s' /\
    updateFields deltaTime s = Some s' /\
    sameFrame s s' /\ wf s' /\
    forall h x z, inGrid (params s) h x z ->
      exists t,
        let t' := cellTemperature (params s) (heatIntensity s) (coldIntensity s) h x z t in
        let p' := cellPressure (params s) h t' in
        read Temperature h x z s = Some t /\
        (read Temperature h x z s1 = Some t' /\
         read Pressure h x z s1 = read Pressure h x z s /\
         read Density h x z s1 = read Density h x z s) /\
        read Temperature h x z s' = Some t' /\
        read Pressure h x z s' = Some p' /\
        read Density h x z s' = Some (idealGasDensity p' t').
Proof.
  intros Hwf.
  destruct (updateTemperatureField_cells s Hwf) as (s1 & Hrun1 & Hfr1 & Hrd1).
  pose proof (sameFrame_wf _ _ Hfr1 Hwf) as Hwf1.
  destruct (updatePressureField_cells s1 Hwf1) as (s' & Hrun2 & Hfr2 & Hrd2).
  exists s1, s'. split; [exact Hrun1 |]. split; [exact Hrun2 |].
  split; [unfold updateFields; rewrite Hrun1; exact Hrun2 |].
  pose proof (sameFrame_trans _ _ _ Hfr1 Hfr2) as Hfr.
  split; [exact Hfr |]. split; [exact (sameFrame_wf _ _ Hfr Hwf) |].
  intros h x z Hin.
  destruct (read_in_grid Temperature h x z s Hwf Hin) as (t & Et).
  exists t. cbn zeta. split; [exact Et |].
  assert (Hin1 : inGrid (params s1) h x z) by (destruct Hfr1 as (-> & _); exact Hin).
  assert (Et1 : read Temperature h x z s1 =
                Some (cellTemperature (params s) (heatIntensity s) (coldIntensity s) h x z t)).
  { rewrite (Hrd1 Temperature) by exact Hin. rewrite Et. reflexivity. }
  split.
  { split; [exact Et1 |].
    split; [apply (Hrd1 Pressure) | apply (Hrd1 Density)]; exact Hin. }
  destruct Hfr1 as (Ep & _).
  rewrite (Hrd2 Temperature), (Hrd2 Pressure), (Hrd2 Density) by exact Hin1.
  rewrite Et1, Ep. simpl. repeat split; reflexivity.
Qed.

End ThermalUpdate.

(* ================================================================== *)
(** ** ThermalSystem: point queries *)

Section ThermalQueries.
Import Thermal ThermalSpec.
Context {F : Type} `{Number F}.
Implicit Types (s : ThermalSystem F) (p : Params F).

(** A position that passes the range test names a cell of the grid. *)
Lemma cellAt_inGrid p (x y z : F) h gx gz :
  cellAt p x y z = Some (h, gx, gz) -> inGrid p h gx gz.
Proof.
  unfold cellAt. cbn zeta.
  destruct (n_floor _) as [gridX|]; [| discriminate].
  destruct (n_floor _) as [gridZ|]; [| discriminate].
  destruct (n_floor _) as [gridH|]; [| discriminate].
  destruct (_ && _) eqn:E; [| discriminate].
  intros [= <- <- <-].
  repeat (apply andb_prop in E; destruct E as [E ?]).
  repeat match goal with Hb : bool_decide _ = true |- _ => apply bool_decide_eq_true in Hb end.
  unfold inGrid. lia.
Qed.

Lemma getTemperatureAt_total s (x y z : F) :
  wf s -> is_Some (getTemperatureAt s x y z).
Proof.
  intros Hwf. unfold getTemperatureAt.
  destruct (cellAt (params s) x y z) as [[[h gx] gz]|] eqn:E; [| eexists; reflexivity].
  apply read_in_grid; [exact Hwf | eapply cellAt_inGrid; exact E].
Qed.

Lemma getPressureAt_total s (x y z : F) :
  wf s -> is_Some (getPressureAt s x y z).
Proof.
  intros Hwf. unfold getPressureAt.
  destruct (cellAt (params s) x y z) as [[[h gx] gz]|] eqn:E; [| eexists; reflexivity].
  apply read_in_grid; [exact Hwf | eapply cellAt_inGrid; exact E].
Qed.

Lemma getWindVectorAt_queries s (P T : F -> F -> F -> F) (x y z : F) :
  (forall x y z, getPressureAt s x y z = Some (P x y z)) ->
  (forall x y z, getTemperatureAt s x y z = Some (T x y z)) ->
  getWindVectorAt s x y z = Some (windVectorAt P T x y z).
Proof.
  intros HP HT. unfold getWindVectorAt. cbn zeta.
  rewrite !HP. cbn [mbind option_bind]. rewrite !HT. reflexivity.
Qed.

Lemma getWindVectorAt_total s (x y z : F) :
  wf s -> is_Some (getWindVectorAt s x y z).
Proof.
  intros Hwf. unfold getWindVectorAt. cbn zeta.
  destruct (getPressureAt_total s x y z Hwf) as (p0 & ->).
  destruct (getPressureAt_total s (x + num 50)%num y z Hwf) as (px & ->).
  destruct (getPressureAt_total s x y (z + num 50)%num Hwf) as (pz & ->).
  destruct (getTemperatureAt_total s x y z Hwf) as (t & ->).
  destruct (getTemperatureAt_total s x (y - num 100)%num z Hwf) as (tb & ->).
  eexists. reflexivity.
Qed.

End ThermalQueries.

(* ================================================================== *)
(** ** ThermalSystem: the properties of the field update *)

Section ThermalProperties.
Import Thermal ThermalSpec.
Context {F : Type} `{Number F}.
Implicit Types (s : ThermalSystem F) (p : Params F).

Lemma updateFields_densityInvariant (deltaTime : F) s :
  wf s ->
  exists s', updateFields deltaTime s = Some s' /\ wf s' /\ densityInvariant s'.
Proof.
  intros Hwf.
  destruct (updateFields_cells deltaTime s Hwf) as (s1 & s' & _ & _ & Hrun & Hfr & Hwf' & Hc).
  exists s'. split; [exact Hrun |]. split; [exact Hwf' |].
  intros h x z Hin. destruct Hfr as (Ep & _). rewrite Ep in Hin.
  destruct (Hc h x z Hin) as (t & _ & _ & Et & Ep' & Ed).
  eexists _, _. split; [exact Et |]. split; [exact Ep' | exact Ed].
Qed.

(** C1. For every cell, after field initialisation and after every call
    of [updateFields], the stored density is
    [pressure / (287.05 * (temperature + 273.15))] of the pressure and
    temperature stored in that cell.  Both operations succeed: construction
    always, an update on every grid of the configured dimensions. *)
Theorem density_invariant_init_update :
  (forall p : Params F,
     exists s, constructor p = Some s /\ wf s /\ densityInvariant s) /\
  (forall (deltaTime : F) s, wf s ->
     exists s', updateFields deltaTime s = Some s' /\ wf s' /\ densityInvariant s').
Proof.
  split.
  - intros p. exists (initialState p). split; [apply constructor_initialState |].
    split; [apply initialState_wf | apply initialState_densityInvariant].
  - intros deltaTime s Hwf. apply updateFields_densityInvariant. exact Hwf.
Qed.

(** C2. One call of [updateFields] runs the temperature pass over the whole
    grid (state [s1]: every temperature updated by [cellTemperature],
    pressure and density still as before), and only then the pressure pass,
    which gives every cell the pressure [cellPressure] of its pass-one
    temperature and the ideal-gas density of that pressure and
    temperature. *)
Theorem updateFields_cellwise (deltaTime : F) s :
  wf s ->
  exists s1 s',
    updateTemperatureField s = Some s1 /\
    updatePressureField s1 = Some s' /\
    updateFields deltaTime s = Some s' /\
    sameFrame s s' /\ wf s' /\
    forall h x z, inGrid (params s) h x z ->
      exists t,
        let t' := cellTemperature (params s) (heatIntensity s) (coldIntensity s) h x z t in
        let p' := cellPressure (params s) h t' in
        read Temperature h x z s = Some t /\
        (read Temperature h x z s1 = Some t' /\
         read Pressure h x z s1 = read Pressure h x z s /\
         read Density h x z s1 = read Density h x z s) /\
        read Temperature h x z s' = Some t' /\
        read Pressure h x z s' = Some p' /\
        read Density h x z s' = Some (idealGasDensity p' t').
Proof. intros Hwf. apply updateFields_cells. exact Hwf. Qed.

(** C8. On every grid of the configured dimensions the point queries are
    total functions [P] and [T] of the position, and [getWindVectorAt]
    returns [fx = -(P(x+50,y,z) - P(x,y,z)) / 50],
    [fy = (T(x,y,z) - T(x,y-100,z)) * 0.01] and
    [fz = -(P(x,y,z+50) - P(x,y,z)) / 50]. *)
Theorem getWindVectorAt_finite_differences s :
  wf s ->
  exists P T : F -> F -> F -> F,
    (forall x y z, getPressureAt s x y z = Some (P x y z)) /\
    (forall x y z, getTemperatureAt s x y z = Some (T x y z)) /\
    forall x y z, getWindVectorAt s x y z = Some (windVectorAt P T x y z).
Proof.
  intros Hwf.
  exists (fun x y z => default (num 0) (getPressureAt s x y z)),
         (fun x y z => default (num 0) (getTemperatureAt s x y z)).
  assert (HP : forall x y z,
            getPressureAt s x y z = Some (default (num 0) (getPressureAt s x y z))).
  { intros x y z. destruct (getPressureAt_total s x y z Hwf) as (v & ->). reflexivity. }
  assert (HT : forall x y z,
            getTemperatureAt s x y z = Some (default (num 0) (getTemperatureAt s x y z))).
  { intros x y z. destruct (getTemperatureAt_total s x y z Hwf) as (v & ->). reflexivity. }
  split; [exact HP |]. split; [exact HT |].
  intros x y z. apply getWindVectorAt_queries; assumption.
Qed.

(** C10. [updateFields] does not depend on its [deltaTime] argument: from
    the same state, any two values give the same result, hence the same
    temperature, pressure and density grids. *)
Theorem updateFields_deltaTime_independent (dt1 dt2 : F) s :
  updateFields dt1 s = updateFields dt2 s /\
  temperatureField <$> updateFields dt1 s = temperatureField <$> updateFields dt2 s /\
  pressureField <$> updateFields dt1 s = pressureField <$> updateFields dt2 s /\
  densityField <$> updateFields dt1 s = densityField <$> updateFields dt2 s.
Proof.
  assert (E : updateFields dt1 s = updateFields dt2 s) by reflexivity.
  rewrite E. repeat split; reflexivity.
Qed.

End ThermalProperties.

(* ================================================================== *)
(** ** ThermalSystem: repeated updates *)

Section ThermalTicks.
Import Thermal ThermalSpec.
Context {F : Type} `{Number F}.
Implicit Types (s : ThermalSystem F).

Lemma setHeatIntensity_wf (v : F) s : wf s -> wf (setHeatIntensity v s).
Proof.
  intros Hwf n.
  destruct n; [exact (Hwf Temperature) | exact (Hwf Pressure) | exact (Hwf Density)].
Qed.

Lemma setColdIntensity_wf (v : F) s : wf s -> wf (setColdIntensity v s).
Proof.
  intros Hwf n.
  destruct n; [exact (Hwf Temperature) | exact (Hwf Pressure) | exact (Hwf Density)].
Qed.

(** Over [n] updates every cell's temperature goes [n] times through
    [cellTemperature]. *)
Lemma ticks_cells (deltaTime : F) n s :
  wf s ->
  exists s',
    ticks deltaTime n s = Some s' /\ sameFrame s s' /\ wf s' /\
    forall h x z t, inGrid (params s) h x z ->
      read Temperature h x z s = Some t ->
      read Temperature h x z s' =
        Some (Nat.iter n
                (cellTemperature (params s) (heatIntensity s) (coldIntensity s) h x z) t).
Proof.
  revert s. induction n as [|n IH]; intros s Hwf.
  - exists s. split; [reflexivity |]. split; [apply sameFrame_refl |].
    split; [exact Hwf |]. intros h x z t _ Et. exact Et.
  - destruct (updateFields_cells deltaTime s Hwf)
      as (s1 & s2 & _ & _ & Hrun & Hfr & Hwf2 & Hc).
    destruct (IH s2 Hwf2) as (s' & Hrun' & Hfr' & Hwf' & Hc').
    exists s'. split; [cbn [ticks]; rewrite Hrun; exact Hrun' |].
    split; [eapply sameFrame_trans; eassumption |]. split; [exact Hwf' |].
    intros h x z t Hin Et.
    destruct (Hc h x z Hin) as (t0 & Et0 & _ & Et2 & _).
    cbn zeta in Et2. rewrite Et in Et0. injection Et0 as <-.
    destruct Hfr as (Ep & Eh & Ec & _).
    rewrite (Hc' h x z _) with (2 := Et2) by (rewrite Ep; exact Hin).
    rewrite Ep, Eh, Ec. rewrite Nat.iter_succ_r. reflexivity.
Qed.

End ThermalTicks.

(* ================================================================== *)
(** ** Real arithmetic behind the program's operations *)

Section RealFacts.
Local Open Scope R_scope.

Lemma ltb_lt (a b : R) : RealNumber.ltb a b = true <-> a < b.
Proof. unfold RealNumber.ltb. destruct (Rlt_dec a b); split; intros; try discriminate; tauto. Qed.

Lemma ltb_ge (a b : R) : RealNumber.ltb a b = false <-> b <= a.
Proof.
  unfold RealNumber.ltb.
  destruct (Rlt_dec a b); split; intros; first [discriminate | lra | reflexivity].
Qed.

(** The integer part of [r] is the integer [z] with [z <= r < z + 1]. *)
Lemma Int_part_between (r : R) (z : Z) : IZR z <= r < IZR z + 1 -> Int_part r = z.
Proof. intros Hr. symmetry. apply Int_part_spec. lra. Qed.

Lemma Int_part_IZR (z : Z) : Int_part (IZR z) = z.
Proof. apply Int_part_between. lra. Qed.

(** [Math.pow(a, 2)] is the square. *)
Lemma pow_2 (a : R) : RealNumber.pow a 2 = a * a.
Proof.
  unfold RealNumber.pow. rewrite (Int_part_IZR 2).
  destruct (Req_dec_T 2 2) as [_|Hne]; [| contradiction].
  simpl. lra.
Qed.

(** A base strictly between 0 and 1 raised to 5.255 is below 1. *)
Lemma pow_5255_lt_1 (b : R) : 0 < b < 1 -> RealNumber.pow b (5255 / 1000) < 1.
Proof.
  intros Hb. unfold RealNumber.pow.
  rewrite (Int_part_between (5255 / 1000) 5) by lra.
  destruct (Req_dec_T (5255 / 1000) 5) as [E|_]; [lra |].
  unfold Rpower. rewrite <- exp_0. apply exp_increasing.
  assert (ln b < 0) by (rewrite <- ln_1; apply ln_increasing; lra).
  nra.
Qed.

(** The planar distance, with the squares multiplied out. *)
Lemma sourceDist_real (wx wz : R) (src : Thermal.Pos2 R) :
  Thermal.sourceDist wx wz src =
  sqrt ((wx - Thermal.pos_x src) * (wx - Thermal.pos_x src) +
        (wz - Thermal.pos_z src) * (wz - Thermal.pos_z src)).
Proof.
  unfold Thermal.sourceDist, num.
  cbn [of_Z n_add n_sub n_sqrt n_pow RealNumber.number].
  rewrite !pow_2. reflexivity.
Qed.

Lemma sqrt_eq (v d : R) : 0 <= d -> d * d = v -> sqrt v = d.
Proof. intros Hd <-. apply sqrt_square. exact Hd. Qed.

Lemma sqrt_ge (v d : R) : 0 <= d -> d * d <= v -> d <= sqrt v.
Proof.
  intros Hd Hv. rewrite <- (sqrt_square d) by exact Hd.
  apply sqrt_le_1_alt. exact Hv.
Qed.

End RealFacts.

(** Unfolds the number interface at the reals and evaluates the integer
    constants. *)
Ltac closed_pos p :=
  lazymatch p with
  | xH => idtac
  | xO ?q => closed_pos q
  | xI ?q => closed_pos q
  end.

Ltac closed_Z z :=
  lazymatch z with
  | Z0 => idtac
  | Zpos ?p => closed_pos p
  | Zneg ?p => closed_pos p
  end.

Ltac real_consts :=
  repeat match goal with
  | |- context [Z.of_nat ?n] =>
      let v := eval vm_compute in (Z.of_nat n) in
      closed_Z v; progress change (Z.of_nat n) with v
  | |- context [(?a ^ ?b)%Z] =>
      let v := eval vm_compute in (a ^ b)%Z in
      closed_Z v; progress change (a ^ b)%Z with v
  end.

Ltac real_eval :=
  unfold num, of_nat, dec;
  cbn [of_Z n_add n_sub n_mul n_div n_neg n_sqrt n_pow n_abs n_max n_min n_ltb
       n_floor n_truthy n_fround RealNumber.number];
  real_consts.

(* ================================================================== *)
(** ** ThermalSystem over the reals: point queries *)

Section ThermalReal.
Import Thermal ThermalSpec.
Local Open Scope R_scope.
Implicit Types (s : ThermalSystem R) (p : Params R).

(** The cell of a position, from the three quotients the query floors. *)
Lemma cellAt_real p (x y z : R) (h gx gz : nat) :
  (h < heightLevels p)%nat -> (gx < gridSize p)%nat -> (gz < gridSize p)%nat ->
  INR gx <= (x + 2000) / (4000 / INR (gridSize p)) < INR gx + 1 ->
  INR gz <= (z + 500) / (4000 / INR (gridSize p)) < INR gz + 1 ->
  INR h <= y / 100 < INR h + 1 ->
  cellAt p x y z = Some (h, gx, gz).
Proof.
  intros Hh Hgx Hgz Bx Bz By. unfold cellAt. cbn zeta.
  unfold num, of_nat. cbn [of_Z n_add n_div n_floor RealNumber.number].
  rewrite <- !INR_IZR_INZ.
  rewrite (Int_part_between _ (Z.of_nat gx)) by (rewrite <- INR_IZR_INZ; exact Bx).
  rewrite (Int_part_between _ (Z.of_nat gz)) by (rewrite <- INR_IZR_INZ; exact Bz).
  rewrite (Int_part_between _ (Z.of_nat h)) by (rewrite <- INR_IZR_INZ; exact By).
  rewrite !bool_decide_eq_true_2 by lia. cbn [andb].
  rewrite !Nat2Z.id. reflexivity.
Qed.

(** Where no cell is found: left of, right of, below and above the grid,
    in front of it, and from 3500 on behind it. *)
Lemma cellAt_outside p (x y z : R) :
  (0 < gridSize p)%nat ->
  x < -2000 \/ 2000 <= x \/ y < 0 \/ 100 * INR (heightLevels p) <= y \/
  z < -500 \/ 3500 <= z ->
  cellAt p x y z = None.
Proof.
  intros HG Hout.
  destruct (cellAt p x y z) as [[[h gx] gz]|] eqn:E; [exfalso | reflexivity].
  revert E. unfold cellAt. cbn zeta.
  unfold num, of_nat. cbn [of_Z n_add n_div n_floor RealNumber.number].
  rewrite <- !INR_IZR_INZ.
  assert (0 < INR (gridSize p)) by (apply lt_0_INR; exact HG).
  set (G := INR (gridSize p)) in *.
  replace ((x + 2000) / (4000 / G)) with ((x + 2000) * G / 4000) by (field; lra).
  replace ((z + 500) / (4000 / G)) with ((z + 500) * G / 4000) by (field; lra).
  destruct (base_Int_part ((x + 2000) * G / 4000)) as (Lx & Ux).
  destruct (base_Int_part ((z + 500) * G / 4000)) as (Lz & Uz).
  destruct (base_Int_part (y / 100)) as (Ly & Uy).
  destruct (_ && _) eqn:Eb; [| discriminate]. intros _.
  repeat (apply andb_prop in Eb; destruct Eb as [Eb ?]).
  repeat match goal with Hb : bool_decide _ = true |- _ => apply bool_decide_eq_true in Hb end.
  repeat match goal with
         | Hz : (_ <= _)%Z |- _ => apply IZR_le in Hz
         | Hz : (?a < ?b)%Z |- _ =>
             assert (IZR a + 1 <= IZR b) by (rewrite <- plus_IZR; apply IZR_le; lia);
             clear Hz
         end.
  repeat match goal with
         | Hz : context [IZR (Z.of_nat _)] |- _ => rewrite <- INR_IZR_INZ in Hz
         end.
  unfold G in *. clear G.
  destruct Hout as [Ho|[Ho|[Ho|[Ho|[Ho|Ho]]]]]; nra.
Qed.

(** There the pressure query returns the sentinel 101325, and the
    temperature query the baseline temperature. *)
Lemma getPressureAt_sentinel s (x y z : R) :
  (0 < gridSize (params s))%nat ->
  x < -2000 \/ 2000 <= x \/ y < 0 \/ 100 * INR (heightLevels (params s)) <= y \/
  z < -500 \/ 3500 <= z ->
  getPressureAt s x y z = Some 101325.
Proof.
  intros HG Hout. unfold getPressureAt. rewrite cellAt_outside by assumption. reflexivity.
Qed.

Lemma getTemperatureAt_sentinel s (x y z : R) :
  (0 < gridSize (params s))%nat ->
  x < -2000 \/ 2000 <= x \/ y < 0 \/ 100 * INR (heightLevels (params s)) <= y \/
  z < -500 \/ 3500 <= z ->
  getTemperatureAt s x y z = Some (baseTemperature (params s)).
Proof.
  intros HG Hout. unfold getTemperatureAt. rewrite cellAt_outside by assumption.
  reflexivity.
Qed.

(** The baseline pressure above the ground is below the sentinel. *)
Lemma baseline_lt_sentinel (height : R) :
  0 < height < 2000 -> baseline height < 101325.
Proof.
  intros Hh. unfold baseline. real_eval.
  cbn [n_pow RealNumber.number].
  assert (RealNumber.pow (1 - 65 / 10000 * height / (28815 / 100)) (5255 / 1000) < 1)
    by (apply pow_5255_lt_1; lra).
  lra.
Qed.

(** C3. With the application's configuration, right after construction,
    the position (0, 100, 600) lies outside the box
    [-2000,2000] x [0,2000] x [-500,500] (its depth is 600), and the
    pressure query there does not return the sentinel 101325: it returns
    the pressure of grid cell (1, 25, 13), which is lower. *)
Theorem getPressureAt_behind_box_reads_cell :
  500 < 600 /\
  exists s (v : R),
    constructor appParams = Some s /\
    cellAt (params s) 0 100 600 = Some (1, 25, 13)%nat /\
    getPressureAt s 0 100 600 = Some v /\
    read Pressure 1 25 13 s = Some v /\
    v < 101325.
Proof.
  split; [lra |].
  assert (Hcell : cellAt appParams 0 100 600 = Some (1, 25, 13)%nat).
  { apply cellAt_real; cbn [appParams heightLevels gridSize]; try lia;
      rewrite !INR_IZR_INZ; real_consts; lra. }
  assert (Hin : inGrid appParams 1 25 13) by (unfold inGrid; cbn; lia).
  exists (initialState appParams), (initialCell appParams Pressure 1).
  split; [apply constructor_initialState |]. split; [exact Hcell |].
  split; [| split].
  - unfold getPressureAt. change (params (initialState appParams)) with appParams.
    rewrite Hcell. apply read_initialState. exact Hin.
  - apply read_initialState. exact Hin.
  - cbn [initialCell]. apply baseline_lt_sentinel.
    unfold levelHeight. cbn [appParams heightLevels]. real_eval. lra.
Qed.

End ThermalReal.

(* ================================================================== *)
(** ** The end-to-end scenario *)

Section ScenarioFacts.
Import Thermal ThermalSpec Scenario.
Local Open Scope R_scope.

Lemma Rmax_Rmin_clamp (v : R) : 0 <= v <= 100 -> Rmax 0 (Rmin 100 v) = v.
Proof. intros Hv. rewrite Rmin_right by lra. apply Rmax_right. lra. Qed.

Lemma start_startState : start = Some startState.
Proof. unfold start. rewrite constructor_initialState. reflexivity. Qed.

Lemma startState_wf : wf startState.
Proof. apply setColdIntensity_wf, setHeatIntensity_wf, initialState_wf. Qed.

Lemma startState_heat : heatIntensity startState = 100.
Proof. cbn. real_eval. apply Rmax_Rmin_clamp. lra. Qed.

Lemma startState_cold : coldIntensity startState = 0.
Proof. cbn. real_eval. apply Rmax_Rmin_clamp. lra. Qed.

Lemma startState_read h x z :
  inGrid config h x z ->
  read Temperature h x z startState = Some (initialCell config Temperature h).
Proof. intros Hin. apply (read_initialState config Temperature). exact Hin. Qed.

Lemma worldX_config (x : nat) : worldX config x = (IZR (Z.of_nat x) - 5) * 400.
Proof. unfold worldX. cbn [config gridSize]. real_eval. lra. Qed.

Lemma worldZ_config (z : nat) : worldZ config z = (IZR (Z.of_nat z) - 5) * 100.
Proof. unfold worldZ. cbn [config gridSize]. real_eval. lra. Qed.

(** One temperature pass on a ground cell of the scenario, from the two
    planar distances [dh] (to the heat source) and [dc] (to the cold
    source) of its column. *)
Lemma cellTemperature_ground (x z : nat) (dh dc t : R) :
  sourceDist (worldX config x) (worldZ config z) (heatSourcePos config) = dh ->
  sourceDist (worldX config x) (worldZ config z) (coldSourcePos config) = dc ->
  cellTemperature config 100 0 0 x z t =
    (if RealNumber.ltb dh 800 then t + (1 - dh / 800) / 10 else t).
Proof.
  intros Eh Ec. unfold cellTemperature. rewrite Eh, Ec. cbn zeta.
  unfold levelHeight. cbn [config heightLevels]. real_eval.
  destruct (RealNumber.ltb dh 800), (RealNumber.ltb dc 800); lra.
Qed.

Lemma iter_add (n : nat) (f : R -> R) (d t : R) :
  (forall t, f t = t + d) -> Nat.iter n f t = t + INR n * d.
Proof.
  intros Hf. induction n as [|n IH].
  - simpl. lra.
  - rewrite S_INR, Nat.iter_succ, Hf, IH. lra.
Qed.

(** The distances of the four columns the scenario looks at. *)
Ltac scenario_dist :=
  rewrite sourceDist_real, worldX_config, worldZ_config;
  cbn [config heatSourcePos coldSourcePos pos_x pos_z]; real_consts.

Lemma nearHeat_step (t : R) : cellTemperature config 100 0 0 3 1 t = t + 1 / 20.
Proof.
  erewrite cellTemperature_ground by reflexivity.
  scenario_dist. rewrite (sqrt_eq _ 400) by lra.
  rewrite (proj2 (ltb_lt 400 800)) by lra. lra.
Qed.

Lemma nearCold_step (t : R) : cellTemperature config 100 0 0 7 1 t = t + 0.
Proof.
  erewrite cellTemperature_ground by reflexivity.
  scenario_dist. rewrite (proj2 (ltb_ge _ 800)) by (apply sqrt_ge; lra). lra.
Qed.

Lemma atHeat_step (t : R) : cellTemperature config 100 0 0 3 5 t = t + 1 / 10.
Proof.
  erewrite cellTemperature_ground by reflexivity.
  scenario_dist. rewrite (sqrt_eq _ 0) by lra.
  rewrite (proj2 (ltb_lt 0 800)) by lra. lra.
Qed.

Lemma atCold_step (t : R) : cellTemperature config 100 0 0 7 5 t = t + 0.
Proof.
  erewrite cellTemperature_ground by reflexivity.
  scenario_dist. rewrite (proj2 (ltb_ge _ 800)) by (apply sqrt_ge; lra). lra.
Qed.

(** The run succeeds, and a ground cell that gains [d] per update ends
    at [20 + 100 * d]. *)
Lemma run_100_cells :
  exists s100,
    run 100 = Some s100 /\ params s100 = config /\
    forall x z d, inGrid config 0 x z ->
      (forall t, cellTemperature config 100 0 0 x z t = t + d) ->
      read Temperature 0 x z s100 = Some (20 + 100 * d).
Proof.
  destruct (ticks_cells (1 / 10) 100 startState startState_wf)
    as (s100 & Hrun & (Ep & _) & _ & Hc).
  exists s100. split; [unfold run; rewrite start_startState; exact Hrun |].
  split; [exact Ep |]. intros x z d Hin Hstep.
  rewrite (Hc 0%nat x z _ Hin (startState_read 0 x z Hin)).
  rewrite startState_heat, startState_cold.
  change (params startState) with config.
  rewrite (iter_add 100 _ d) by exact Hstep.
  f_equal. cbn [initialCell]. unfold levelHeight. cbn [config heightLevels baseTemperature].
  real_eval. rewrite INR_IZR_INZ. real_consts. lra.
Qed.

(** The cells the two point queries of the scenario read. *)
Lemma nearHeat_cell s : params s = config -> nearHeat s = read Temperature 0 3 1 s.
Proof.
  intros Ep. unfold nearHeat, getTemperatureAt. rewrite Ep.
  rewrite (cellAt_real config (-800) 0 0 0 3 1);
    [reflexivity | cbn; lia .. | | |];
    cbn [config gridSize]; rewrite !INR_IZR_INZ; real_consts; lra.
Qed.

Lemma nearCold_cell s : params s = config -> nearCold s = read Temperature 0 7 1 s.
Proof.
  intros Ep. unfold nearCold, getTemperatureAt. rewrite Ep.
  rewrite (cellAt_real config 800 0 0 0 7 1);
    [reflexivity | cbn; lia .. | | |];
    cbn [config gridSize]; rewrite !INR_IZR_INZ; real_consts; lra.
Qed.

Lemma scenario_outcome :
  outcome nearHeat nearCold 20 25 20 /\ outcome atHeat atCold 20 30 20.
Proof.
  destruct run_100_cells as (s100 & Hrun & Ep & Hc).
  assert (Hin : forall x z, (x < 10)%nat -> (z < 10)%nat -> inGrid config 0 x z)
    by (intros x z Hx Hz; unfold inGrid; cbn; lia).
  assert (H20 : initialCell config Temperature 0 = 20).
  { cbn [initialCell]. unfold levelHeight. cbn [config heightLevels baseTemperature].
    real_eval. lra. }
  split; exists startState, s100;
    (split; [exact start_startState |]); (split; [exact Hrun |]).
  - rewrite !nearHeat_cell, nearCold_cell by first [exact Ep | reflexivity].
    rewrite startState_read, H20 by (apply Hin; lia).
    rewrite (Hc 3%nat 1%nat (1 / 20)) by first [apply Hin; lia | exact nearHeat_step].
    rewrite (Hc 7%nat 1%nat 0) by first [apply Hin; lia | exact nearCold_step].
    repeat split; f_equal; lra.
  - unfold atHeat, atCold.
    rewrite startState_read, H20 by (apply Hin; lia).
    rewrite (Hc 3%nat 5%nat (1 / 10)) by first [apply Hin; lia | exact atHeat_step].
    rewrite (Hc 7%nat 5%nat 0) by first [apply Hin; lia | exact atCold_step].
    repeat split; f_equal; lra.
Qed.

(** The scenario's outcome is unique: the run is a function. *)
Lemma outcome_unique hot cold h0 h100 c100 h0' h100' c100' :
  outcome hot cold h0 h100 c100 -> outcome hot cold h0' h100' c100' ->
  h0 = h0' /\ h100 = h100' /\ c100 = c100'.
Proof.
  intros (s0 & s100 & E1 & E2 & E3 & E4 & E5) (s0' & s100' & E1' & E2' & E3' & E4' & E5').
  rewrite E1 in E1'. injection E1' as <-. rewrite E2 in E2'. injection E2' as <-.
  rewrite E3 in E3'. rewrite E4 in E4'. rewrite E5 in E5'.
  repeat split; congruence.
Qed.

Lemma expectation_fails hot cold h0 h100 c100 :
  outcome hot cold h0 h100 c100 -> c100 < h100 -> ~ expectation hot cold.
Proof.
  intros Hout Hlt (s0 & s100 & a & b & c & E1 & E2 & E3 & E4 & E5 & _ & Hbc).
  destruct (outcome_unique hot cold h0 h100 c100 a b c Hout) as (_ & -> & ->).
  - exists s0, s100. repeat split; assumption.
  - lra.
Qed.

(** C4, as the specification states it, does not hold: in the scenario
    the cell nearest the heat source does not remain colder than the cell
    nearest the cold source, whether "nearest" is the cell the point query
    reads or the column at the source's position. *)
Lemma scenario_expectation_fails :
  ~ expectation nearHeat nearCold /\ ~ expectation atHeat atCold.
Proof.
  destruct scenario_outcome as (Hq & Hc). split.
  - apply (expectation_fails _ _ _ _ _ Hq). lra.
  - apply (expectation_fails _ _ _ _ _ Hc). lra.
Qed.

(** C4, amended.  In the scenario, after one hundred updates the
    temperature of the cell nearest (-800, lowest altitude, 0) has strictly
    increased against its initial value and is strictly higher than the
    temperature of the cell nearest (800, lowest altitude, 0); this holds
    for the cells the point queries read (20 to 25, against 20) and for
    the columns at the sources' positions (20 to 30, against 20). *)
Theorem scenario_heat_cell_warmer :
  amended nearHeat nearCold /\ amended atHeat atCold.
Proof.
  destruct scenario_outcome as ((s0 & s100 & Hq) & (s0' & s100' & Hc)). split.
  - exists s0, s100, 20, 25, 20.
    destruct Hq as (? & ? & ? & ? & ?). repeat split; try assumption; lra.
  - exists s0', s100', 20, 30, 20.
    destruct Hc as (? & ? & ? & ? & ?). repeat split; try assumption; lra.
Qed.

End ScenarioFacts.

(* ================================================================== *)
(** ** ParticleSystem: one particle *)

Section ParticleFacts.
Import Particles ParticleSpec.
Context {F : Type} `{Number F} `{ColorModel F}.
Implicit Types (ts : Thermal.ThermalSystem F) (s : ParticleSystem F) (rng : Rng F).
Local Open Scope num_scope.

Lemma length_f32_set i (v : F) (a : list F) : length (f32_set i v a) = length a.
Proof. apply length_insert. Qed.

Lemma lookup_f32_set_ne i j (v : F) (a : list F) :
  i <> j -> f32_set i v a !! j = a !! j.
Proof. intros Hne. apply list_lookup_insert_ne. exact Hne. Qed.

Lemma f32_add_spec i (d : F) (a : list F) v :
  a !! i = Some v -> f32_add i d a = Some (f32_set i (v + d) a).
Proof. intros E. unfold f32_add. rewrite E. reflexivity. Qed.

Lemma length_storePosition index xyz (a : list F) :
  length (storePosition index xyz a) = length a.
Proof. unfold storePosition. rewrite !length_f32_set. reflexivity. Qed.

Lemma lookup_storePosition_ne index xyz (a : list F) j :
  (j < index * 3 \/ index * 3 + 2 < j)%nat ->
  storePosition index xyz a !! j = a !! j.
Proof.
  intros Hj. unfold storePosition, f32_set.
  rewrite !list_lookup_insert_ne by lia. reflexivity.
Qed.

(** The particle a position was stored for reads back that position,
    rounded to single precision. *)
Lemma position_storePosition index xyz (a : list F) s :
  positions s = storePosition index xyz a ->
  (index * 3 + 2 < length a)%nat ->
  position s index = Some (n_fround xyz.1.1, n_fround xyz.1.2, n_fround xyz.2).
Proof.
  intros E Hlen. unfold position. rewrite E. unfold storePosition, f32_set.
  set (i3 := (index * 3)%nat) in *.
  rewrite (list_lookup_insert_ne _ (i3 + 2) i3), (list_lookup_insert_ne _ (i3 + 1) i3) by lia.
  rewrite (list_lookup_insert_eq a i3) by lia. cbn [mbind option_bind].
  rewrite (list_lookup_insert_ne _ (i3 + 2) (i3 + 1)) by lia.
  rewrite (list_lookup_insert_eq _ (i3 + 1)) by (rewrite length_insert; lia).
  cbn [mbind option_bind].
  rewrite (list_lookup_insert_eq _ (i3 + 2)) by (rewrite !length_insert; lia).
  reflexivity.
Qed.

(** [initializeParticle(index)] draws three numbers, stores the fresh
    position, a zero velocity, the colour and the size; it succeeds when
    the slot is inside or at the end of [velocities]. *)
Lemma initializeParticle_spec ts index s rng :
  ThermalSpec.wf ts -> (index <= length (velocities s))%nat ->
  exists s',
    initializeParticle ts index s rng = Some (s', skip 3 rng) /\
    params s' = params s /\ isActive s' = isActive s /\
    positions s' = storePosition index (freshPosition rng) (positions s) /\
    array_set index zero (velocities s) = Some (velocities s') /\
    length (colors s') = length (colors s) /\
    length (sizes s') = length (sizes s).
Proof.
  intros Hts Hidx. unfold initializeParticle, random. cbn zeta.
  match goal with |- context [Thermal.getTemperatureAt ts ?x ?y ?z] =>
    destruct (getTemperatureAt_total ts x y z Hts) as (temp & ->)
  end.
  cbn [mbind option_bind].
  assert (Hset : is_Some (array_set index zero (velocities s))).
  { unfold array_set. repeat case_decide; try (eexists; reflexivity). lia. }
  destruct Hset as (vs & Evs).
  cbn [set_sizes set_positions storeColor set_colors velocities].
  unfold zero in Evs. rewrite Evs. cbn [mbind option_bind].
  eexists. split; [reflexivity |].
  cbn [set_velocities set_sizes set_positions storeColor set_colors
       params isActive positions velocities colors sizes].
  repeat split; try reflexivity.
  - exact Evs.
  - rewrite !length_f32_set. reflexivity.
  - apply length_f32_set.
Qed.

Lemma position_Some s index x y z :
  position s index = Some (x, y, z) <->
  positions s !! (index * 3)%nat = Some x /\
  positions s !! (index * 3 + 1)%nat = Some y /\
  positions s !! (index * 3 + 2)%nat = Some z.
Proof.
  unfold position. split.
  - destruct (positions s !! (index * 3)%nat) as [a|]; [| discriminate].
    destruct (positions s !! (index * 3 + 1)%nat) as [b|]; [| discriminate].
    destruct (positions s !! (index * 3 + 2)%nat) as [c|]; [| discriminate].
    intros [= -> -> ->]. repeat split; reflexivity.
  - intros (-> & -> & ->). reflexivity.
Qed.

(** A particle inside the arrays has a position and a velocity. *)
Lemma wf_particle s index :
  wf s -> (index < maxParticles (params s))%nat ->
  is_Some (position s index) /\ is_Some (velocities s !! index).
Proof.
  intros (Hp & Hv) Hi. split.
  - destruct (lookup_lt_is_Some_2 (positions s) (index * 3)) as (x & Ex); [lia |].
    destruct (lookup_lt_is_Some_2 (positions s) (index * 3 + 1)) as (y & Ey); [lia |].
    destruct (lookup_lt_is_Some_2 (positions s) (index * 3 + 2)) as (z & Ez); [lia |].
    exists (x, y, z). apply position_Some. repeat split; assumption.
  - apply lookup_lt_is_Some_2. lia.
Qed.

(** The first part of [updateParticle]: the new velocity replaces the old
    one in its slot, and the particle moves by it. *)
Lemma integrate_spec ts index (deltaTime : F) s x y z v :
  ThermalSpec.wf ts ->
  position s index = Some (x, y, z) -> velocities s !! index = Some v ->
  exists wind temp s1,
    Thermal.getWindVectorAt ts x y z = Some wind /\
    Thermal.getTemperatureAt ts x y z = Some temp /\
    integrate ts index deltaTime s = Some s1 /\
    params s1 = params s /\ isActive s1 = isActive s /\
    colors s1 = colors s /\ sizes s1 = sizes s /\
    velocities s1 = <[index := updateVelocity wind temp deltaTime v]> (velocities s) /\
    positions s1 =
      storePosition index
        (x + Vector3.x (updateVelocity wind temp deltaTime v) * deltaTime,
         y + Vector3.y (updateVelocity wind temp deltaTime v) * deltaTime,
         z + Vector3.z (updateVelocity wind temp deltaTime v) * deltaTime)
        (positions s).
Proof.
  intros Hts Hpos Hv. apply position_Some in Hpos. destruct Hpos as (Ex & Ey & Ez).
  destruct (getWindVectorAt_total ts x y z Hts) as (wind & Ew).
  destruct (getTemperatureAt_total ts x y z Hts) as (temp & Et).
  exists wind, temp. unfold integrate. cbn zeta.
  rewrite Ex. cbn [mbind option_bind]. rewrite Ey. cbn [mbind option_bind].
  rewrite Ez. cbn [mbind option_bind]. rewrite Ew. cbn [mbind option_bind].
  rewrite Et. cbn [mbind option_bind]. rewrite Hv. cbn [mbind option_bind].
  cbn [set_velocities set_positions positions].
  rewrite (f32_add_spec (index * 3) _ _ x) by exact Ex. cbn [mbind option_bind].
  rewrite (f32_add_spec (index * 3 + 1) _ _ y)
    by (rewrite lookup_f32_set_ne by lia; exact Ey).
  cbn [mbind option_bind].
  rewrite (f32_add_spec (index * 3 + 2) _ _ z)
    by (rewrite !lookup_f32_set_ne by lia; exact Ez).
  cbn [mbind option_bind].
  eexists. split; [reflexivity |]. split; [reflexivity |]. split; [reflexivity |].
  cbn [params isActive colors sizes velocities positions].
  repeat split; reflexivity.
Qed.

(** [checkBoundaries(index)]: a particle that left the box is
    initialised again in its slot; any other is left alone. *)
Lemma checkBoundaries_spec ts index s rng xyz :
  ThermalSpec.wf ts ->
  position s index = Some xyz -> (index < length (velocities s))%nat ->
  exists s' rng',
    checkBoundaries ts index s rng = Some (s', rng') /\
    params s' = params s /\ isActive s' = isActive s /\
    length (positions s') = length (positions s) /\
    length (velocities s') = length (velocities s) /\
    (forall j, j <> index -> velocities s' !! j = velocities s !! j) /\
    if needsReset xyz
    then rng' = skip 3 rng /\ velocities s' !! index = Some zero /\
         position s' index =
           Some (n_fround (freshPosition rng).1.1, n_fround (freshPosition rng).1.2,
                 n_fround (freshPosition rng).2)
    else rng' = rng /\ s' = s.
Proof.
  intros Hts Hpos Hidx. destruct xyz as [[x y] z].
  pose proof (proj1 (position_Some s index x y z) Hpos) as (Ex & Ey & Ez).
  unfold checkBoundaries. cbn zeta.
  rewrite Ex. cbn [mbind option_bind]. rewrite Ey. cbn [mbind option_bind].
  rewrite Ez. cbn [mbind option_bind].
  change (_ || _ || _ || _) with (needsReset (x, y, z)).
  destruct (needsReset (x, y, z)).
  - destruct (initializeParticle_spec ts index s rng Hts) as
      (s' & Hrun & Ep & Ea & Epos & Evel & _); [lia |].
    exists s', (skip 3 rng). split; [exact Hrun |].
    rewrite array_set_lt in Evel by exact Hidx. injection Evel as Evel.
    split; [exact Ep |]. split; [exact Ea |].
    split; [rewrite Epos; apply length_storePosition |].
    split; [rewrite <- Evel; apply length_insert |].
    split; [intros j Hj; rewrite <- Evel; apply list_lookup_insert_ne; congruence |].
    split; [reflexivity |].
    split; [rewrite <- Evel; apply list_lookup_insert_eq; exact Hidx |].
    apply (position_storePosition index _ (positions s)); [exact Epos |].
    apply lookup_lt_Some in Ez. exact Ez.
  - exists s, rng. repeat split; reflexivity.
Qed.

(** [updateParticle(index, deltaTime)]: integration, then the boundary
    check on the integrated position [xyz1], then the colour. *)
Lemma updateParticle_spec ts index (deltaTime : F) s rng x y z v :
  ThermalSpec.wf ts ->
  position s index = Some (x, y, z) -> velocities s !! index = Some v ->
  exists s1 xyz1 s' rng',
    integrate ts index deltaTime s = Some s1 /\
    position s1 index = Some xyz1 /\
    (exists wind temp,
       Thermal.getWindVectorAt ts x y z = Some wind /\
       Thermal.getTemperatureAt ts x y z = Some temp /\
       velocities s1 !! index = Some (updateVelocity wind temp deltaTime v)) /\
    updateParticle ts index deltaTime s rng = Some (s', rng') /\
    params s' = params s /\ isActive s' = isActive s /\
    length (positions s') = length (positions s) /\
    length (velocities s') = length (velocities s) /\
    (forall j, j <> index -> velocities s' !! j = velocities s !! j) /\
    if needsReset xyz1
    then rng' = skip 3 rng /\ velocities s' !! index = Some zero /\
         position s' index =
           Some (n_fround (freshPosition rng).1.1, n_fround (freshPosition rng).1.2,
                 n_fround (freshPosition rng).2)
    else rng' = rng /\ velocities s' !! index = velocities s1 !! index /\
         position s' index = Some xyz1.
Proof.
  intros Hts Hpos Hv.
  destruct (integrate_spec ts index deltaTime s x y z v Hts Hpos Hv)
    as (wind & temp & s1 & Ew & Et & Hint & Ep1 & Ea1 & _ & _ & Ev1 & Epos1).
  pose proof (proj1 (position_Some s index x y z) Hpos) as (_ & _ & Ez).
  apply lookup_lt_Some in Ez. pose proof (lookup_lt_Some _ _ _ Hv) as Hidx.
  pose proof (position_storePosition index _ (positions s) s1 Epos1 Ez) as Hpos1.
  assert (Hidx1 : (index < length (velocities s1))%nat)
    by (rewrite Ev1, length_insert; exact Hidx).
  destruct (checkBoundaries_spec ts index s1 rng _ Hts Hpos1 Hidx1)
    as (s2 & rng' & Hcb & Ep2 & Ea2 & Lp2 & Lv2 & Hfr2 & Hres).
  assert (Hpos2 : is_Some (position s2 index)).
  { destruct (needsReset _); [destruct Hres as (_ & _ & ->) | destruct Hres as (_ & ->)];
      eexists; first [reflexivity | exact Hpos1]. }
  destruct Hpos2 as ([[x2 y2] z2] & Hpos2).
  pose proof (proj1 (position_Some s2 index x2 y2 z2) Hpos2) as (Ex2 & Ey2 & Ez2).
  destruct (getTemperatureAt_total ts x2 y2 z2 Hts) as (temp2 & Et2).
  eexists s1, _, _, rng'. split; [exact Hint |]. split; [exact Hpos1 |].
  split.
  { exists wind, temp. split; [exact Ew |]. split; [exact Et |].
    rewrite Ev1. apply list_lookup_insert_eq. exact Hidx. }
  split.
  { unfold updateParticle. cbn zeta. rewrite Hint. cbn [mbind option_bind].
    rewrite Hcb. cbn [mbind option_bind].
    rewrite Ex2. cbn [mbind option_bind]. rewrite Ey2. cbn [mbind option_bind].
    rewrite Ez2. cbn [mbind option_bind]. rewrite Et2. reflexivity. }
  cbn [storeColor set_colors params isActive positions velocities].
  split; [congruence |]. split; [congruence |].
  split; [rewrite Lp2, Epos1; apply length_storePosition |].
  split; [rewrite Lv2, Ev1; apply length_insert |].
  split.
  { intros j Hj. rewrite Hfr2 by exact Hj. rewrite Ev1.
    apply list_lookup_insert_ne. congruence. }
  destruct (needsReset _).
  - destruct Hres as (-> & Ez0 & Ep0). split; [reflexivity |]. split; [exact Ez0 |].
    unfold position in *. exact Ep0.
  - destruct Hres as (-> & ->). repeat split; reflexivity || exact Hpos1.
Qed.

(** [update(deltaTime)] on an active system: every particle is updated
    once, so whatever [updateVelocity] and a reset guarantee of a velocity
    holds of all of them afterwards. *)
Lemma update_active_spec (Q : Vector3.t F -> Prop) ts (deltaTime : F) s rng :
  ThermalSpec.wf ts -> wf s -> isActive s = true ->
  Q zero -> (forall wind temp d v, Q (updateVelocity wind temp d v)) ->
  exists s' rng',
    update ts deltaTime s rng = Some (s', rng') /\
    wf s' /\ params s' = params s /\ isActive s' = isActive s /\
    forall i v, (i < maxParticles (params s))%nat -> velocities s' !! i = Some v -> Q v.
Proof.
  intros Hts Hwf Hact Hzero Hupd. unfold update. rewrite Hact. cbn [negb]. cbn zeta.
  destruct (for_loop_inv
    (fun k (sr : ParticleSystem F * Rng F) =>
       wf sr.1 /\ params sr.1 = params s /\ isActive sr.1 = isActive s /\
       forall i v, (i < k)%nat -> velocities sr.1 !! i = Some v -> Q v)
    (maxParticles (params s))
    (fun i sr => updateParticle ts i (deltaTime * particleSpeed (params s)) sr.1 sr.2)
    (s, rng)) as ([s' rng'] & Hrun & Hwf' & Ep' & Ea' & HQ).
  - cbn [fst]. split; [exact Hwf |]. split; [reflexivity |]. split; [reflexivity |].
    intros i v Hi. lia.
  - intros k [sk rk] Hk (Hwfk & Epk & Eak & HQk). cbn [fst snd] in *.
    destruct (wf_particle sk k Hwfk) as (([[x y] z] & Hpos) & (v & Hv));
      [rewrite Epk; exact Hk |].
    destruct (updateParticle_spec ts k (deltaTime * particleSpeed (params s)) sk rk
                x y z v Hts Hpos Hv)
      as (s1 & xyz1 & s2 & r2 & _ & _ & (wind & temp & _ & _ & Ev1) & Hrun & Ep2 & Ea2
          & Lp2 & Lv2 & Hfr & Hres).
    exists (s2, r2). split; [exact Hrun |]. cbn [fst].
    split; [unfold wf in *; rewrite Ep2, Lp2, Lv2; exact Hwfk |].
    split; [congruence |]. split; [congruence |].
    intros i w Hi Ew. destruct (decide (i = k)) as [->|Hne].
    + destruct (needsReset xyz1).
      * destruct Hres as (_ & Ez & _). rewrite Ez in Ew. injection Ew as <-. exact Hzero.
      * destruct Hres as (_ & Ev & _). rewrite Ev, Ev1 in Ew. injection Ew as <-.
        apply Hupd.
    + rewrite Hfr in Ew by exact Hne. apply (HQk i w); [lia | exact Ew].
  - exists s', rng'. split; [exact Hrun |]. cbn [fst] in *.
    split; [exact Hwf' |]. split; [exact Ep' |]. split; [congruence |]. exact HQ.
Qed.

Lemma freshPosition_ext rng rng' :
  (forall m, rng' m = rng m) -> freshPosition rng' = freshPosition rng.
Proof. intros E. unfold freshPosition. rewrite !E. reflexivity. Qed.

(** The loop that initialises every particle: slots [0 .. maxParticles-1]
    get fresh positions and zero velocities; [velocities] grows when it
    is shorter than that and is otherwise left as long as it is, with
    every slot from [maxParticles] on untouched. *)
Lemma initializeAll_spec ts s rng :
  ThermalSpec.wf ts ->
  exists s' rng',
    initializeAll ts (s, rng) = Some (s', rng') /\
    params s' = params s /\ isActive s' = isActive s /\
    length (positions s') = length (positions s) /\
    length (colors s') = length (colors s) /\
    length (sizes s') = length (sizes s) /\
    length (velocities s') = Nat.max (length (velocities s)) (maxParticles (params s)) /\
    (forall i, (i < maxParticles (params s))%nat -> velocities s' !! i = Some zero) /\
    (forall i, (maxParticles (params s) <= i)%nat -> velocities s' !! i = velocities s !! i) /\
    (forall m, rng' m = rng (3 * maxParticles (params s) + m)%nat) /\
    (forall i, (i < maxParticles (params s))%nat ->
       (i * 3 + 2 < length (positions s))%nat ->
       position s' i = Some (stored (freshPosition (skip (3 * i) rng)))).
Proof.
  intros Hts. unfold initializeAll. cbn [fst].
  destruct (for_loop_inv
    (fun k (sr : ParticleSystem F * Rng F) =>
       params sr.1 = params s /\ isActive sr.1 = isActive s /\
       length (positions sr.1) = length (positions s) /\
       length (colors sr.1) = length (colors s) /\
       length (sizes sr.1) = length (sizes s) /\
       length (velocities sr.1) = Nat.max (length (velocities s)) k /\
       (forall i, (i < k)%nat -> velocities sr.1 !! i = Some zero) /\
       (forall i, (k <= i)%nat -> velocities sr.1 !! i = velocities s !! i) /\
       (forall m, sr.2 m = rng (3 * k + m)%nat) /\
       (forall i, (i < k)%nat -> (i * 3 + 2 < length (positions s))%nat ->
          position sr.1 i = Some (stored (freshPosition (skip (3 * i) rng)))))
    (maxParticles (params s))
    (fun i sr => initializeParticle ts i sr.1 sr.2)
    (s, rng)) as ([s' rng'] & Hrun & Hinv).
  - cbn [fst snd].
    repeat split;
      first [reflexivity | intros; lia | rewrite Nat.max_0_r; reflexivity
            | intros m; f_equal; lia].
  - intros k [sk rk] Hk (Ep & Ea & Lp & Lc & Ls & Lv & Hz & Hold & Hr & Hpos).
    cbn [fst snd] in *.
    destruct (initializeParticle_spec ts k sk rk Hts) as
      (s2 & Hrun & Ep2 & Ea2 & Epos2 & Evel2 & Lc2 & Ls2); [lia |].
    exists (s2, skip 3 rk). split; [exact Hrun |]. cbn [fst snd].
    split; [congruence |]. split; [congruence |].
    split; [rewrite Epos2, length_storePosition; exact Lp |].
    split; [congruence |]. split; [congruence |].
    split; [rewrite (array_set_length _ _ _ _ Evel2); lia |].
    split.
    { intros i Hi. destruct (decide (i = k)) as [->|Hne].
      - apply (array_set_lookup _ _ _ _ Evel2).
      - rewrite (array_set_lookup_ne _ _ _ _ _ Evel2) by congruence. apply Hz. lia. }
    split.
    { intros i Hi. rewrite (array_set_lookup_ne _ _ _ _ _ Evel2) by lia. apply Hold. lia. }
    split.
    { intros m. unfold skip. rewrite Hr. f_equal. lia. }
    intros i Hi Hlen. destruct (decide (i = k)) as [->|Hne].
    + rewrite (position_storePosition k _ (positions sk) s2 Epos2) by lia.
      rewrite (freshPosition_ext (skip (3 * k) rng) rk)
        by (intros m; unfold skip; apply Hr).
      reflexivity.
    + rewrite <- (Hpos i) by (first [lia | exact Hlen]).
      unfold position. rewrite Epos2.
      rewrite !lookup_storePosition_ne by lia. reflexivity.
  - cbn [fst snd] in Hinv. exists s', rng'. split; [exact Hrun |]. exact Hinv.
Qed.

(** [setParticleCount(count)] re-creates the typed arrays at the clamped
    capacity and initialises that many particles, but goes on using the
    old [velocities] array. *)
Lemma setParticleCount_spec ts count s rng :
  ThermalSpec.wf ts ->
  exists s' rng',
    setParticleCount ts count s rng = Some (s', rng') /\
    maxParticles (params s') = clampCount count /\
    length (positions s') = (clampCount count * 3)%nat /\
    length (colors s') = (clampCount count * 3)%nat /\
    length (sizes s') = clampCount count /\
    (forall i, (i < clampCount count)%nat ->
       velocities s' !! i = Some zero /\
       position s' i = Some (stored (freshPosition (skip (3 * i) rng)))) /\
    length (velocities s') = Nat.max (length (velocities s)) (clampCount count) /\
    (forall i, (clampCount count <= i)%nat -> velocities s' !! i = velocities s !! i).
Proof.
  intros Hts. unfold setParticleCount, createParticleSystem. cbn zeta.
  match goal with |- context [initializeAll ts (?s0, rng)] =>
    destruct (initializeAll_spec ts s0 rng Hts)
      as (s' & rng' & Hrun & Ep & _ & Lp & Lc & Ls & Lv & Hz & Hold & _ & Hpos)
  end.
  cbn [set_sizes set_colors set_positions set_params params positions colors sizes
       velocities maxParticles] in *.
  fold (clampCount count) in *. unfold f32_new in *. rewrite length_replicate in *.
  exists s', rng'. split; [exact Hrun |].
  split; [rewrite Ep; reflexivity |]. split; [exact Lp |]. split; [exact Lc |].
  split; [exact Ls |].
  split; [intros i Hi; split; [apply Hz; exact Hi | apply Hpos; lia] |].
  split; [exact Lv | exact Hold].
Qed.

End ParticleFacts.

(* ================================================================== *)
(** ** ParticleSystem over the reals *)

Section ParticleReal.
Import Particles ParticleSpec RealParticles.
Local Open Scope R_scope.
Implicit Types (ts : Thermal.ThermalSystem R) (s : ParticleSystem R) (rng : Rng R).

Lemma needsReset_outOfBounds (xyz : R * R * R) :
  needsReset xyz = true <-> outOfBounds xyz.
Proof.
  unfold needsReset, outOfBounds. real_eval.
  rewrite !orb_true_iff, !ltb_lt. unfold Rgt. tauto.
Qed.

Lemma freshPosition_inBounds rng : unitStream rng -> inBounds (freshPosition rng).
Proof.
  intros Hr. unfold inBounds, freshPosition. cbn [fst snd]. real_eval.
  pose proof (Hr 0%nat). pose proof (Hr 1%nat). pose proof (Hr 2%nat). lra.
Qed.

Lemma sqrt_le_bound (v d : R) : 0 <= d -> v <= d * d -> sqrt v <= d.
Proof.
  intros Hd Hv. rewrite <- (sqrt_square d) by exact Hd.
  apply sqrt_le_1_alt. exact Hv.
Qed.

Lemma length_real (v : Vector3.t R) :
  Vector3.length v =
  sqrt (Vector3.x v * Vector3.x v + Vector3.y v * Vector3.y v + Vector3.z v * Vector3.z v).
Proof. reflexivity. Qed.

Lemma length_zero : Vector3.length (zero : Vector3.t R) = 0.
Proof.
  rewrite length_real. cbn [zero Vector3.x Vector3.y Vector3.z]. real_eval.
  apply sqrt_eq; lra.
Qed.

(** A vector longer than zero, normalised and scaled by [m >= 0], has
    length [m]. *)
Lemma length_rescaled (v : Vector3.t R) (m : R) :
  0 <= m -> 0 < Vector3.length v ->
  Vector3.length (Vector3.multiplyScalar m (Vector3.normalize v)) = m.
Proof.
  intros Hm Hl. unfold Vector3.normalize.
  cbn [n_truthy RealNumber.number]. unfold RealNumber.truthy.
  destruct (Req_dec_T (Vector3.length v) 0) as [E|_]; [lra |].
  set (l := Vector3.length v) in *.
  assert (Hsq : l * l =
            Vector3.x v * Vector3.x v + Vector3.y v * Vector3.y v + Vector3.z v * Vector3.z v).
  { unfold l. rewrite length_real. apply sqrt_sqrt.
    pose proof (Rle_0_sqr (Vector3.x v)). pose proof (Rle_0_sqr (Vector3.y v)).
    pose proof (Rle_0_sqr (Vector3.z v)). unfold Rsqr in *. lra. }
  rewrite length_real.
  unfold Vector3.divideScalar, Vector3.multiplyScalar.
  cbn [Vector3.x Vector3.y Vector3.z]. real_eval.
  apply sqrt_eq; [exact Hm |].
  transitivity (m * m * ((Vector3.x v * Vector3.x v + Vector3.y v * Vector3.y v
                          + Vector3.z v * Vector3.z v) / (l * l))).
  - rewrite <- Hsq. field. lra.
  - field. lra.
Qed.

(** The speed limit of [updateParticle]. *)
Lemma updateVelocity_speed (wind : Vector3.t R) (temp dt : R) (v : Vector3.t R) :
  Vector3.length (updateVelocity wind temp dt v) <= 20.
Proof.
  unfold updateVelocity. cbn zeta.
  match goal with |- context [if (?a <? ?b)%num then _ else _] =>
    change (a <? b)%num with (RealNumber.ltb a b);
    destruct (RealNumber.ltb a b) eqn:E
  end.
  - apply ltb_lt in E. unfold num in E. cbn [of_Z RealNumber.number] in E.
    rewrite length_rescaled; unfold num; cbn [of_Z RealNumber.number]; lra.
  - apply ltb_ge in E. exact E.
Qed.

(** Below the speed limit [updateVelocity] is wind, buoyancy and drag. *)
Lemma updateVelocity_unclamped (wind : Vector3.t R) (temp dt : R) (v w : Vector3.t R) :
  w = Vector3.mk
        ((Vector3.x v + Vector3.x wind * dt) * (98 / 100))
        ((Vector3.y v + Vector3.y wind * dt + (temp - 20) * (1 / 1000) * dt) * (98 / 100))
        ((Vector3.z v + Vector3.z wind * dt) * (98 / 100)) ->
  Vector3.x w * Vector3.x w + Vector3.y w * Vector3.y w + Vector3.z w * Vector3.z w
    <= 20 * 20 ->
  updateVelocity wind temp dt v = w.
Proof.
  intros Ew Hle. unfold updateVelocity. cbn zeta.
  match goal with |- context [if (?a <? ?b)%num then _ else ?e] =>
    change (a <? b)%num with (RealNumber.ltb a b);
    assert (Ee : e = w);
    [| rewrite (proj2 (ltb_ge a b)); [exact Ee |]]
  end.
  - rewrite Ew. unfold Vector3.multiplyScalar, Vector3.add, buoyancyForce.
    cbn [Vector3.x Vector3.y Vector3.z]. real_eval. reflexivity.
  - rewrite Ee. unfold num. cbn [of_Z RealNumber.number].
    rewrite length_real. apply sqrt_le_bound; [lra | exact Hle].
Qed.

(** The wind at a position whose two pressure probes fall into its own
    cell: no horizontal force. *)
Lemma getWindVectorAt_same_cell ts (x y z : R) (h gx gz : nat) (pr t tb : R) :
  Thermal.cellAt (Thermal.params ts) x y z = Some (h, gx, gz) ->
  Thermal.cellAt (Thermal.params ts) (x + 50) y z = Some (h, gx, gz) ->
  Thermal.cellAt (Thermal.params ts) x y (z + 50) = Some (h, gx, gz) ->
  Thermal.read Thermal.Pressure h gx gz ts = Some pr ->
  Thermal.read Thermal.Temperature h gx gz ts = Some t ->
  Thermal.getTemperatureAt ts x (y - 100) z = Some tb ->
  Thermal.getTemperatureAt ts x y z = Some t /\
  Thermal.getWindVectorAt ts x y z = Some (Vector3.mk 0 ((t - tb) * (1 / 100)) 0).
Proof.
  intros E0 Ex Ez Ep Et Eb.
  assert (Et0 : Thermal.getTemperatureAt ts x y z = Some t)
    by (unfold Thermal.getTemperatureAt; rewrite E0; exact Et).
  split; [exact Et0 |].
  unfold Thermal.getWindVectorAt. cbn zeta. unfold Thermal.getPressureAt.
  unfold num. cbn [of_Z n_add n_sub RealNumber.number].
  rewrite E0, Ex, Ez, Ep. cbn [mbind option_bind]. rewrite Et0. cbn [mbind option_bind].
  rewrite Eb. cbn [mbind option_bind]. f_equal. real_eval. f_equal; lra.
Qed.

(** Integration of a particle whose pressure probes stay in its cell
    and which ends below the speed limit: the velocity [w] it gets and the
    position it moves to. *)
Lemma integrate_same_cell ts index (dt : R) s (x y z : R) (v w : Vector3.t R)
    (h gx gz : nat) (pr t tb : R) :
  ThermalSpec.wf ts ->
  position s index = Some (x, y, z) -> velocities s !! index = Some v ->
  Thermal.cellAt (Thermal.params ts) x y z = Some (h, gx, gz) ->
  Thermal.cellAt (Thermal.params ts) (x + 50) y z = Some (h, gx, gz) ->
  Thermal.cellAt (Thermal.params ts) x y (z + 50) = Some (h, gx, gz) ->
  Thermal.read Thermal.Pressure h gx gz ts = Some pr ->
  Thermal.read Thermal.Temperature h gx gz ts = Some t ->
  Thermal.getTemperatureAt ts x (y - 100) z = Some tb ->
  w = Vector3.mk
        (Vector3.x v * (98 / 100))
        ((Vector3.y v + (t - tb) * (1 / 100) * dt + (t - 20) * (1 / 1000) * dt) * (98 / 100))
        (Vector3.z v * (98 / 100)) ->
  Vector3.x w * Vector3.x w + Vector3.y w * Vector3.y w + Vector3.z w * Vector3.z w
    <= 20 * 20 ->
  exists s1,
    integrate ts index dt s = Some s1 /\
    velocities s1 !! index = Some w /\
    position s1 index =
      Some (x + Vector3.x w * dt, y + Vector3.y w * dt, z + Vector3.z w * dt).
Proof.
  intros Hts Hpos Hv E0 Ex Ez Ep Et Eb Ew Hle.
  destruct (integrate_spec ts index dt s x y z v Hts Hpos Hv)
    as (wind & temp & s1 & Hwind & Htemp & Hint & _ & _ & _ & _ & Ev1 & Epos1).
  destruct (getWindVectorAt_same_cell ts x y z h gx gz pr t tb E0 Ex Ez Ep Et Eb)
    as (Htemp' & Hwind').
  rewrite Htemp' in Htemp. injection Htemp as <-.
  rewrite Hwind' in Hwind. injection Hwind as <-.
  assert (Eu : updateVelocity (Vector3.mk 0 ((t - tb) * (1 / 100)) 0) t dt v = w).
  { apply updateVelocity_unclamped; [| exact Hle].
    rewrite Ew. cbn [Vector3.x Vector3.y Vector3.z]. f_equal; lra. }
  rewrite Eu in Ev1, Epos1.
  exists s1. split; [exact Hint |].
  split; [rewrite Ev1; apply list_lookup_insert_eq; eapply lookup_lt_Some; exact Hv |].
  apply (position_storePosition index _ (positions s) s1 Epos1).
  apply position_Some in Hpos. destruct Hpos as (_ & _ & Hz).
  eapply lookup_lt_Some. exact Hz.
Qed.

End ParticleReal.

(* ================================================================== *)
(** ** ParticleSystem: the properties of advection and resizing *)

Section ParticleProperties.
Import Particles ParticleSpec RealParticles.
Local Open Scope R_scope.
Implicit Types (ts : Thermal.ThermalSystem R) (s : ParticleSystem R) (rng : Rng R).

(** C5. When the position particle [index] has after integration lies
    outside the box, [updateParticle] leaves in slot [index] the position
    made from the next three draws of the random stream, which is inside
    the box, and exactly zero velocity; the computed position and velocity
    are gone, and the number of particles and the array lengths are as
    before. *)
Theorem boundary_recycling ts s rng index (deltaTime : R) s1 xyz1 :
  ThermalSpec.wf ts -> wf s -> (index < maxParticles (params s))%nat ->
  unitStream rng ->
  integrate ts index deltaTime s = Some s1 ->
  position s1 index = Some xyz1 ->
  outOfBounds xyz1 ->
  exists s' rng',
    updateParticle ts index deltaTime s rng = Some (s', rng') /\
    position s' index = Some (freshPosition rng) /\
    inBounds (freshPosition rng) /\
    velocities s' !! index = Some zero /\
    maxParticles (params s') = maxParticles (params s) /\
    length (positions s') = length (positions s) /\
    length (velocities s') = length (velocities s).
Proof.
  intros Hts Hwf Hidx Hrng Hint Hpos1 Hout.
  destruct (wf_particle s index Hwf Hidx) as (([[x y] z] & Hpos) & (v & Hv)).
  destruct (updateParticle_spec ts index deltaTime s rng x y z v Hts Hpos Hv)
    as (s1' & xyz1' & s' & rng' & Hint' & Hpos1' & _ & Hrun & Ep & _ & Lp & Lv & _ & Hres).
  rewrite Hint in Hint'. injection Hint' as <-.
  rewrite Hpos1 in Hpos1'. injection Hpos1' as <-.
  rewrite (proj2 (needsReset_outOfBounds xyz1) Hout) in Hres.
  destruct Hres as (_ & Ez & Epos).
  exists s', rng'. split; [exact Hrun |].
  split; [rewrite Epos; destruct (freshPosition rng) as [[a b] c]; reflexivity |].
  split; [apply freshPosition_inBounds; exact Hrng |].
  split; [exact Ez |]. split; [rewrite Ep; reflexivity |]. split; assumption.
Qed.

(** C6. After [updateParticle] the particle's speed is at most 20, and
    after [update] so is the speed of every particle, recycled or not: an
    active system updates them all, a paused one leaves them as they
    are. *)
Theorem speed_limit ts s rng (deltaTime : R) :
  ThermalSpec.wf ts -> wf s ->
  (forall index, (index < maxParticles (params s))%nat ->
     exists s' rng' v,
       updateParticle ts index deltaTime s rng = Some (s', rng') /\
       velocities s' !! index = Some v /\ Vector3.length v <= 20) /\
  (isActive s = true \/ speedBounded s ->
     exists s' rng',
       update ts deltaTime s rng = Some (s', rng') /\ wf s' /\ speedBounded s').
Proof.
  intros Hts Hwf. split.
  - intros index Hidx.
    destruct (wf_particle s index Hwf Hidx) as (([[x y] z] & Hpos) & (v & Hv)).
    destruct (updateParticle_spec ts index deltaTime s rng x y z v Hts Hpos Hv)
      as (s1 & xyz1 & s' & rng' & _ & _ & (wind & temp & _ & _ & Ev1) & Hrun & _ & _ & _
          & _ & _ & Hres).
    exists s', rng'. destruct (needsReset xyz1).
    + destruct Hres as (_ & Ez & _). exists zero. split; [exact Hrun |].
      split; [exact Ez |]. rewrite length_zero. lra.
    + destruct Hres as (_ & Ev & _). eexists. split; [exact Hrun |].
      split; [rewrite Ev; exact Ev1 |]. apply updateVelocity_speed.
  - intros Hcase. destruct (isActive s) eqn:Hact.
    + destruct (update_active_spec (fun v => Vector3.length v <= 20) ts deltaTime s rng
                  Hts Hwf Hact) as (s' & rng' & Hrun & Hwf' & Ep & _ & HQ).
      * rewrite length_zero. lra.
      * intros wind temp d v. apply updateVelocity_speed.
      * exists s', rng'. split; [exact Hrun |]. split; [exact Hwf' |].
        intros i v Hi. rewrite Ep in Hi. apply HQ. exact Hi.
    + destruct Hcase as [Hc|Hb]; [discriminate |].
      exists s, rng. unfold update. rewrite Hact. cbn [negb].
      split; [reflexivity |]. split; assumption.
Qed.

(** The baseline atmosphere of a 50 x 50 x 20 grid: the temperature of
    level [h]. *)
Lemma initialCell_temperature (base : R) (h : nat) :
  ThermalSpec.initialCell
    (Thermal.mkParams 50 20 (Thermal.mkPos2 (-800) 0) (Thermal.mkPos2 800 0) base)
    Thermal.Temperature h
  = base - INR h * (65 / 100).
Proof.
  cbn [ThermalSpec.initialCell]. unfold Thermal.levelHeight.
  cbn [Thermal.heightLevels Thermal.baseTemperature]. real_eval.
  rewrite <- INR_IZR_INZ. lra.
Qed.

(** C7. With the baseline temperature configured as 15, a particle at
    rest at (0, 0, 0) sits in air of exactly the baseline temperature, so
    the buoyancy term of the specification is 0; the code's term is
    [(15 - 20) * 0.001 = -0.005], and one integration step with
    [deltaTime = 1] leaves the particle the velocity (0, -0.0049, 0): the
    term is taken against the constant 20, not against the configured
    baseline. *)
Theorem buoyancy_against_constant_20 :
  exists ts temp,
    Thermal.constructor coolParams = Some ts /\
    Thermal.getTemperatureAt ts 0 0 0 = Some temp /\
    temp = Thermal.baseTemperature (Thermal.params ts) /\
    specBuoyancy ts temp = 0 /\
    buoyancyForce temp = -5 / 1000 /\
    exists s1,
      integrate ts 0 1 (single (0, 0, 0) zero) = Some s1 /\
      velocities s1 !! 0%nat = Some (Vector3.mk 0 (-49 / 10000) 0).
Proof.
  set (ts := ThermalSpec.initialState coolParams).
  assert (Hts : ThermalSpec.wf ts) by apply initialState_wf.
  assert (Hc : forall x z, 0 <= x <= 50 -> 0 <= z <= 50 ->
            Thermal.cellAt (Thermal.params ts) x 0 z = Some (0, 25, 6)%nat).
  { intros x z Hx Hz. apply cellAt_real; cbn; try lia;
      rewrite ?INR_IZR_INZ; real_consts; lra. }
  assert (Hin : ThermalSpec.inGrid coolParams 0 25 6) by (unfold ThermalSpec.inGrid; cbn; lia).
  pose proof (read_initialState coolParams Thermal.Temperature 0 25 6 Hin) as Et.
  pose proof (read_initialState coolParams Thermal.Pressure 0 25 6 Hin) as Ep.
  unfold coolParams in Et at 2. rewrite initialCell_temperature in Et.
  replace (15 - INR 0 * (65 / 100)) with 15 in Et by (simpl; lra).
  assert (Eb : Thermal.getTemperatureAt ts 0 (0 - 100) 0 = Some 15).
  { apply (getTemperatureAt_sentinel ts); [cbn; lia | lra]. }
  assert (E0 : Thermal.getTemperatureAt ts 0 0 0 = Some 15).
  { unfold Thermal.getTemperatureAt. rewrite Hc by lra. exact Et. }
  exists ts, 15. split; [apply constructor_initialState |]. split; [exact E0 |].
  split; [reflexivity |].
  split; [unfold specBuoyancy; cbn; lra |].
  split; [unfold buoyancyForce; real_eval; lra |].
  destruct (integrate_same_cell ts 0 1 (single (0, 0, 0) zero) 0 0 0 zero
              (Vector3.mk 0 (-49 / 10000) 0) 0 25 6
              (ThermalSpec.initialCell coolParams Thermal.Pressure 0) 15 15 Hts)
    as (s1 & Hint & Ev & _);
    [reflexivity | reflexivity | apply Hc; lra | apply Hc; lra | apply Hc; lra
    | exact Ep | exact Et | exact Eb | | | ].
  - unfold zero, num. cbn [of_Z RealNumber.number Vector3.x Vector3.y Vector3.z].
    f_equal; lra.
  - cbn [Vector3.x Vector3.y Vector3.z]. lra.
  - exists s1. split; [exact Hint | exact Ev].
Qed.

(** C9. A system of 101 particles, all moving at (1, 0, 0), resized with
    [setParticleCount(100)]: the capacity and the typed arrays are those of
    100 particles, but [velocities] still has 101 entries, and entry 100
    still holds the velocity (1, 0, 0) of the old set. *)
Theorem setParticleCount_keeps_old_velocities :
  exists s' rng',
    setParticleCount (ThermalSpec.initialState appParams) 100 moving101 halves
      = Some (s', rng') /\
    maxParticles (params s') = 100%nat /\
    length (positions s') = 300%nat /\
    length (velocities s') = 101%nat /\
    velocities s' !! 100%nat = Some (Vector3.mk 1 0 0).
Proof.
  destruct (setParticleCount_spec (ThermalSpec.initialState appParams) 100 moving101 halves
              (initialState_wf appParams))
    as (s' & rng' & Hrun & Ep & Lp & _ & _ & _ & Lv & Hold).
  exists s', rng'. split; [exact Hrun |].
  change (clampCount 100) with 100%nat in *.
  split; [exact Ep |]. split; [exact Lp |].
  split; [rewrite Lv; reflexivity |].
  rewrite Hold by lia. reflexivity.
Qed.

End ParticleProperties.

(* ================================================================== *)
(** ** The properties at concrete inputs *)

Section Instances.
Import Thermal ThermalSpec.
Local Open Scope R_scope.

(** C1 at the scenario's grid: one update of the freshly built system. *)
Lemma density_invariant_init_update_witness :
  exists s',
    updateFields (1 / 10) (initialState Scenario.config) = Some s' /\
    wf s' /\ densityInvariant s'.
Proof.
  apply (proj2 density_invariant_init_update). apply initialState_wf.
Defined.

(** C2 at the scenario's grid: the cell above the heat source after one
    update of the freshly built system. *)
Lemma updateFields_cellwise_witness :
  exists s' t,
    updateFields (1 / 10) (initialState Scenario.config) = Some s' /\
    read Temperature 0 3 5 (initialState Scenario.config) = Some t /\
    read Temperature 0 3 5 s' = Some (cellTemperature Scenario.config 80 60 0 3 5 t) /\
    read Pressure 0 3 5 s' =
      Some (cellPressure Scenario.config 0 (cellTemperature Scenario.config 80 60 0 3 5 t)).
Proof.
  destruct (updateFields_cellwise (1 / 10) (initialState Scenario.config)
              (initialState_wf Scenario.config))
    as (s1 & s' & _ & _ & Hrun & _ & _ & Hc).
  destruct (Hc 0%nat 3%nat 5%nat) as (t & Et & _ & Et' & Ep' & _).
  { unfold inGrid. cbn. lia. }
  exists s', t. split; [exact Hrun |]. split; [exact Et |].
  split; [exact Et' | exact Ep'].
Defined.

(** C8 at the scenario's grid, freshly built. *)
Lemma getWindVectorAt_finite_differences_witness :
  exists P T : R -> R -> R -> R,
    (forall x y z, getPressureAt (initialState Scenario.config) x y z = Some (P x y z)) /\
    (forall x y z, getTemperatureAt (initialState Scenario.config) x y z = Some (T x y z)) /\
    forall x y z,
      getWindVectorAt (initialState Scenario.config) x y z = Some (windVectorAt P T x y z).
Proof.
  apply getWindVectorAt_finite_differences. apply initialState_wf.
Defined.

End Instances.

Section ParticleInstances.
Import Particles ParticleSpec RealParticles.
Local Open Scope R_scope.

Lemma single_wf (xyz : R * R * R) (v : Vector3.t R) : wf (single xyz v).
Proof. split; cbn; lia. Qed.

Lemma halves_unitStream : unitStream halves.
Proof. intros n. unfold halves. lra. Qed.

(** The cell of a position in the middle column of the application's
    grid, at altitude [y] in level [h]. *)
Lemma cellAt_middle (x y z : R) (h : nat) :
  (h < 20)%nat -> 0 <= x <= 50 -> 0 <= z <= 50 -> INR h <= y / 100 < INR h + 1 ->
  Thermal.cellAt appParams x y z = Some (h, 25, 6)%nat.
Proof.
  intros Hh Hx Hz Hy. apply cellAt_real; cbn [appParams Thermal.heightLevels Thermal.gridSize];
    try lia; try exact Hy; rewrite ?INR_IZR_INZ; real_consts; lra.
Qed.

Lemma read_middle (h : nat) :
  (h < 20)%nat ->
  Thermal.read Thermal.Temperature h 25 6 (ThermalSpec.initialState appParams)
    = Some (20 - INR h * (65 / 100)).
Proof.
  intros Hh. rewrite read_initialState by (unfold ThermalSpec.inGrid; cbn; lia).
  unfold appParams. rewrite initialCell_temperature. reflexivity.
Qed.

(** C5 for a particle 10 below the top of the box, rising at speed 20,
    over one update with [deltaTime = 1]: it is integrated to an altitude
    above 2000 and recycled. *)
Lemma boundary_recycling_witness :
  exists s' rng',
    updateParticle (ThermalSpec.initialState appParams) 0 1
      (single (0, 1990, 0) (Vector3.mk 0 20 0)) halves = Some (s', rng') /\
    position s' 0 = Some (freshPosition halves) /\
    inBounds (freshPosition halves) /\
    velocities s' !! 0%nat = Some zero.
Proof.
  set (ts := ThermalSpec.initialState appParams).
  assert (Hts : ThermalSpec.wf ts) by apply initialState_wf.
  assert (I19 : INR 19 = 19) by (rewrite INR_IZR_INZ; real_consts; reflexivity).
  assert (I18 : INR 18 = 18) by (rewrite INR_IZR_INZ; real_consts; reflexivity).
  assert (Hc : forall x z, 0 <= x <= 50 -> 0 <= z <= 50 ->
            Thermal.cellAt (Thermal.params ts) x 1990 z = Some (19, 25, 6)%nat).
  { intros x z Hx Hz. apply (cellAt_middle x 1990 z 19); [lia | exact Hx | exact Hz |].
    rewrite I19. lra. }
  assert (Et : Thermal.read Thermal.Temperature 19 25 6 ts = Some (765 / 100)).
  { unfold ts. rewrite read_middle by lia. f_equal. rewrite I19. lra. }
  assert (Eb : Thermal.getTemperatureAt ts 0 (1990 - 100) 0 = Some (83 / 10)).
  { unfold Thermal.getTemperatureAt. change (Thermal.params ts) with appParams.
    rewrite (cellAt_middle 0 (1990 - 100) 0 18) by (rewrite ?I18; first [lia | lra]).
    unfold ts. rewrite read_middle by lia. f_equal. rewrite I18. lra. }
  destruct (integrate_same_cell ts 0 1 (single (0, 1990, 0) (Vector3.mk 0 20 0))
              0 1990 0 (Vector3.mk 0 20 0) (Vector3.mk 0 (19581527 / 1000000) 0) 19 25 6
              (ThermalSpec.initialCell appParams Thermal.Pressure 19)
              (765 / 100) (83 / 10) Hts)
    as (s1 & Hint & _ & Hpos1);
    [reflexivity | reflexivity | apply Hc; lra | apply Hc; lra | apply Hc; lra
    | apply read_initialState; unfold ThermalSpec.inGrid; cbn; lia
    | exact Et | exact Eb
    | cbn [Vector3.x Vector3.y Vector3.z]; f_equal; lra
    | cbn [Vector3.x Vector3.y Vector3.z]; lra | ].
  destruct (boundary_recycling ts (single (0, 1990, 0) (Vector3.mk 0 20 0)) halves 0 1 s1 _
              Hts (single_wf _ _) (Nat.lt_0_1) halves_unitStream Hint Hpos1)
    as (s' & rng' & Hrun & Hpos & Hin & Hv & _).
  { unfold outOfBounds. cbn [fst snd Vector3.x Vector3.y Vector3.z]. right. right. left. lra. }
  exists s', rng'. split; [exact Hrun |]. split; [exact Hpos |]. split; [exact Hin | exact Hv].
Defined.

(** C6 for a single particle at rest in the middle of the ground. *)
Lemma speed_limit_witness :
  exists s' rng',
    update (ThermalSpec.initialState appParams) 1 (single (0, 0, 0) zero) halves
      = Some (s', rng') /\
    wf s' /\ speedBounded s'.
Proof.
  destruct (speed_limit (ThermalSpec.initialState appParams) (single (0, 0, 0) zero) halves 1
              (initialState_wf appParams) (single_wf _ _)) as (_ & Hupd).
  apply Hupd. left. reflexivity.
Defined.

End ParticleInstances.

(* ================================================================== *)
(** ** The scenario executed on binary64 *)

Section ScenarioBinary64.
Import Floats.
Local Set Warnings "-inexact-float".

(** Before the first update all four cells hold 20. *)
Example readings_start (hostPow : float -> float -> float) :
  Scenario64.readings hostPow 0 =
  Some [Some 20%float; Some 20%float; Some 20%float; Some 20%float].
Proof. vm_compute. reflexivity. Qed.

(** After one hundred updates the two cells at the heat source have
    warmed to 25 and 30 (up to rounding), the two at the cold source
    still hold 20; the real-number outcome is the same. *)
Example readings_100 (hostPow : float -> float -> float) :
  Scenario64.readings hostPow 100 =
  Some [Some 25.000000000000071%float; Some 20%float;
        Some 30.000000000000142%float; Some 20%float].
Proof. vm_compute. reflexivity. Qed.

(** The pressure query of the application's grid at depth 600, behind
    the box, gives the baseline pressure of level 1, as it does at depth
    400 inside the box; at depth -600, in front of the box, it gives the
    sentinel. *)
Example pressuresAt_depths (hostPow : float -> float -> float) :
  App64.pressuresAt hostPow [(0, 100, 600); (0, 100, 400); (0, 100, -600)]%float =
  Some [Some (101325 * hostPow 0.99774423043553706 5.2549999999999999)%float;
        Some (101325 * hostPow 0.99774423043553706 5.2549999999999999)%float;
        Some 101325%float].
Proof. vm_compute. reflexivity. Qed.

End ScenarioBinary64.

(* ================================================================== *)
(** ** ThermalSystem: construction, clamps and the temperature pass *)

Section FieldGridFacts.
Import Thermal ThermalSpec.
Context {F : Type} `{Number F}.
Implicit Types (p : Params F) (s : ThermalSystem F).

Lemma get3_initialGrid_None p n k h x z :
  ~ (h < k /\ x < gridSize p /\ z < gridSize p) ->
  get3 h x z (initialGrid p n k) = None.
Proof.
  intros Hout. unfold get3, initialGrid.
  change (map ?f ?l) with (f <$> l). rewrite list_lookup_fmap.
  destruct (decide (h < k)) as [Hh|Hh];
    [| rewrite lookup_seq_ge by lia; reflexivity].
  rewrite lookup_seq_lt by exact Hh. simpl.
  destruct (decide (x < gridSize p)) as [Hx|Hx];
    [| rewrite (proj1 (lookup_replicate_None _ _ _)) by lia; reflexivity].
  rewrite lookup_replicate_2 by exact Hx. simpl.
  apply lookup_replicate_None. lia.
Qed.

(** X1. Construction always succeeds and builds the baseline atmosphere:
    the three grids have exactly [heightLevels] x [gridSize] x [gridSize]
    cells, every cell of level [h] holds the temperature
    [baseTemperature - height * 0.0065], the baseline pressure of that
    height and its ideal-gas density, and the intensities are 80 and 60. *)
Theorem constructor_baseline_atmosphere p :
  exists s,
    constructor p = Some s /\ wf s /\ params s = p /\
    heatIntensity s = num 80 /\ coldIntensity s = num 60 /\
    (forall n h x z, inGrid p h x z -> read n h x z s = Some (initialCell p n h)) /\
    (forall n h x z, ~ inGrid p h x z -> read n h x z s = None).
Proof.
  exists (initialState p). split; [apply constructor_initialState |].
  split; [apply initialState_wf |]. split; [reflexivity |].
  split; [reflexivity |]. split; [reflexivity |].
  split.
  - intros n h x z Hin. apply read_initialState. exact Hin.
  - intros n h x z Hout. unfold read. rewrite field_initialState.
    apply get3_initialGrid_None. exact Hout.
Qed.

(** Two grids of the same shape whose cells agree are the same grid. *)
Lemma field3_ext (f g : Field3 F) :
  shape f = shape g ->
  (forall h x z, get3 h x z f = get3 h x z g) ->
  f = g.
Proof.
  intros Hs Hc. apply list_eq. intros h.
  assert (Hsh : shape f !! h = shape g !! h) by (rewrite Hs; reflexivity).
  unfold shape in Hsh. change (map ?a ?l) with (a <$> l) in Hsh.
  rewrite !list_lookup_fmap in Hsh.
  destruct (f !! h) as [pf|] eqn:Ef, (g !! h) as [pg|] eqn:Eg;
    try discriminate; [| reflexivity].
  f_equal. simpl in Hsh. injection Hsh as Hsh.
  apply list_eq. intros x.
  assert (Hsx : (length <$> pf) !! x = (length <$> pg) !! x)
    by (change (length <$> pf) with (map length pf);
        change (length <$> pg) with (map length pg); rewrite Hsh; reflexivity).
  rewrite !list_lookup_fmap in Hsx.
  destruct (pf !! x) as [rf|] eqn:Erf, (pg !! x) as [rg|] eqn:Erg;
    try discriminate; [| reflexivity].
  f_equal. apply list_eq. intros z.
  specialize (Hc h x z). unfold get3 in Hc. rewrite Ef, Eg in Hc. simpl in Hc.
  rewrite Erf, Erg in Hc. exact Hc.
Qed.

(** In a grid of the configured dimensions a cell outside the range
    does not exist. *)
Lemma read_outside_None n h x z s :
  wf s -> ~ inGrid (params s) h x z -> read n h x z s = None.
Proof.
  intros Hwf Hout. unfold read.
  destruct (get3 h x z (field n s)) as [v|] eqn:E; [exfalso | reflexivity].
  apply Hout. specialize (Hwf n). unfold get3 in E.
  destruct (field n s !! h) as [plane|] eqn:Ef; [simpl in E | discriminate].
  destruct (plane !! x) as [row|] eqn:Ep; [simpl in E | discriminate].
  assert (E1 : shape (field n s) !! h = Some (map length plane)).
  { unfold shape. change (map ?a ?l) with (a <$> l).
    rewrite list_lookup_fmap, Ef. reflexivity. }
  rewrite Hwf in E1. apply lookup_replicate_1 in E1. destruct E1 as (E1 & Hh).
  assert (E2 : map length plane !! x = Some (length row)).
  { change (map ?a ?l) with (a <$> l). rewrite list_lookup_fmap, Ep. reflexivity. }
  rewrite E1 in E2. apply lookup_replicate_1 in E2. destruct E2 as (E2 & Hx).
  apply lookup_lt_Some in E. unfold inGrid. lia.
Qed.

(** Two systems of the configured dimensions with the same frame and the
    same cells are equal. *)
Lemma thermal_ext s s' :
  wf s -> sameFrame s s' ->
  (forall n h x z, inGrid (params s) h x z -> read n h x z s' = read n h x z s) ->
  s' = s.
Proof.
  intros Hwf Hfr Hc. pose proof (sameFrame_wf _ _ Hfr Hwf) as Hwf'.
  destruct Hfr as (Ep & Eh & Ec & Es).
  assert (Hf : forall n, field n s' = field n s).
  { intros n. apply field3_ext; [apply Es |]. intros h x z.
    destruct (decide (inGrid (params s) h x z)) as [Hin|Hout].
    - apply (Hc n h x z Hin).
    - change (read n h x z s' = read n h x z s).
      rewrite (read_outside_None n h x z s Hwf Hout).
      apply read_outside_None; [exact Hwf' | rewrite Ep; exact Hout]. }
  pose proof (Hf Temperature) as Et. pose proof (Hf Pressure) as Epr.
  pose proof (Hf Density) as Ed. cbn [field] in Et, Epr, Ed.
  destruct s, s'. cbn in *. congruence.
Qed.

(** X6. The pressure pass is idempotent and leaves the temperature grid
    alone: on a grid of the configured dimensions it succeeds, a second
    run on its result changes nothing, and the temperatures are those it
    started from. *)
Theorem updatePressureField_idempotent s :
  wf s ->
  exists s1,
    updatePressureField s = Some s1 /\
    updatePressureField s1 = Some s1 /\
    temperatureField s1 = temperatureField s.
Proof.
  intros Hwf.
  destruct (updatePressureField_cells s Hwf) as (s1 & Hrun1 & Hfr1 & Hrd1).
  pose proof (sameFrame_wf _ _ Hfr1 Hwf) as Hwf1.
  destruct (updatePressureField_cells s1 Hwf1) as (s2 & Hrun2 & Hfr2 & Hrd2).
  pose proof Hfr1 as (Ep & _).
  assert (E : s2 = s1).
  { apply thermal_ext; [exact Hwf1 | exact Hfr2 |].
    intros n h x z Hin. rewrite Hrd2 by exact Hin.
    rewrite Ep in Hin. rewrite (Hrd1 Temperature), (Hrd1 n) by exact Hin.
    rewrite Ep. destruct (read Temperature h x z s); reflexivity. }
  exists s1. split; [exact Hrun1 |]. split; [rewrite <- E at 2; exact Hrun2 |].
  apply field3_ext.
  - destruct Hfr1 as (_ & _ & _ & Es). apply (Es Temperature).
  - intros h x z. destruct (decide (inGrid (params s) h x z)) as [Hin|Hout].
    + change (read Temperature h x z s1 = read Temperature h x z s).
      rewrite (Hrd1 Temperature) by exact Hin.
      destruct (read Temperature h x z s); reflexivity.
    + change (read Temperature h x z s1 = read Temperature h x z s).
      rewrite (read_outside_None _ _ _ _ s Hwf Hout).
      apply read_outside_None; [exact Hwf1 | rewrite Ep; exact Hout].
Qed.

End FieldGridFacts.
